(** * The OpenObserve log/alert adapter: query builder, backend client,
      result normaliser and alert handlers

    A shallow embedding of
    [observability-logs-openobserve/internal/openobserve/queries.go],
    of the backend client of the same package (types, [GetComponentLogs],
    [CreateAlert], [DeleteAlert], [getAlertIDByName],
    [parseApplicationLogEntry]) and of the alert handlers of package [app];
    then of the rest of the service: [NewClient], [HandleLogsQuery],
    [LoadConfig] and the start of [main] up to its health probe.

    Go strings are byte strings: they are [string] here, one [ascii] per byte.
    Go [int] and [int64] values are [Z]; the only arithmetic the adapter does
    on them is the conversion of instants, whose wrap-around is written out.
    A Go [map[string]interface{}] is a [gmap string any], where [any] carries
    the dynamic type of the value.

    The [slog] calls and the debug dump of the generated documents write to
    the log and to standard output only; they decide no return value and no
    request, and are left out of the embedding. *)

From Stdlib Require Import ZArith Ascii String List Lia DecimalString.
From Stdlib Require Import Floats.SpecFloat.
From stdpp Require Import base option gmap strings list fin_maps.

Local Open Scope string_scope.
Local Open Scope Z_scope.
Local Set Warnings "-register-all".

(** ** Go library functions on strings *)

Module strings.

(** [strings.HasPrefix] *)
Fixpoint HasPrefix (s prefix : string) {struct prefix} : bool :=
  match prefix with
  | EmptyString => true
  | String p prefix' =>
      match s with
      | EmptyString => false
      | String c s' => if Ascii.eqb c p then HasPrefix s' prefix' else false
      end
  end.

(** The scan of [strings.Replace] for a non-empty pattern: matches are taken
    leftmost first and do not overlap.  [skip] counts the bytes of the
    current match that are still to be passed over. *)
Fixpoint replaceFrom (old new : string) (skip : nat) (s : string) : string :=
  match s with
  | EmptyString => EmptyString
  | String c s' =>
      match skip with
      | S k => replaceFrom old new k s'
      | O =>
          if HasPrefix s old
          then new +:+ replaceFrom old new (Nat.pred (String.length old)) s'
          else String c (replaceFrom old new 0 s')
      end
  end.

(** With the empty pattern Go inserts [new] in front of every UTF-8 sequence
    and at the end; the model does so in front of every byte, which is the
    same on ASCII text.  The adapter never passes the empty pattern. *)
Fixpoint insertAround (new s : string) : string :=
  match s with
  | EmptyString => new
  | String c s' => new +:+ String c (insertAround new s')
  end.

(** [strings.ReplaceAll] *)
Definition ReplaceAll (s old new : string) : string :=
  match old with
  | EmptyString => insertAround new s
  | String _ _ => replaceFrom old new 0 s
  end.

(** [strings.Join] *)
Fixpoint Join (elems : list string) (sep : string) : string :=
  match elems with
  | [] => EmptyString
  | [e] => e
  | e :: rest => e +:+ sep +:+ Join rest sep
  end.

(** [strings.HasSuffix] *)
Definition HasSuffix (s suffix : string) : bool :=
  let n := String.length s in
  let k := String.length suffix in
  if (k <=? n)%nat then String.eqb (String.substring (n - k) k s) suffix else false.

(** The substring test of [strings.Contains]. *)
Fixpoint Contains (s substr : string) : bool :=
  if HasPrefix s substr then true
  else match s with
       | EmptyString => false
       | String _ s' => Contains s' substr
       end.

(** [strings.TrimSuffix] *)
Definition TrimSuffix (s suffix : string) : string :=
  if HasSuffix s suffix
  then String.substring 0 (String.length s - String.length suffix) s
  else s.

(** The scan at the head of [strings.ToUpper]: no byte is [utf8.RuneSelf]
    or above. *)
Fixpoint isASCII (s : string) : bool :=
  match s with
  | EmptyString => true
  | String c s' => (nat_of_ascii c <? 128)%nat && isASCII s'
  end.

(** The ASCII path of [strings.ToUpper]: the bytes a to z lose 32. *)
Definition upperByte (c : ascii) : ascii :=
  let n := nat_of_ascii c in
  if ((97 <=? n) && (n <=? 122))%nat then ascii_of_nat (n - 32) else c.

Fixpoint upperASCII (s : string) : string :=
  match s with
  | EmptyString => EmptyString
  | String c s' => String (upperByte c) (upperASCII s')
  end.

(** [strings.ToUpper]: the ASCII path is written out, the path through
    [strings.Map] and [unicode.ToUpper] is the function [mapToUpper]. *)
Definition ToUpper (mapToUpper : string -> string) (s : string) : string :=
  if isASCII s then upperASCII s else mapToUpper s.

End strings.

(** ** Values and instants *)

(** The two-valued results of Go: a value or an error, the error being its
    message. *)
Inductive result (A : Type) : Type :=
  | Ok (a : A)
  | Err (msg : string).
Arguments Ok {A} a.
Arguments Err {A} msg.

(** A Go [interface{}] value with its dynamic type: what the adapter puts
    into the documents it renders ([string], [int], [int64], [[]string],
    nested maps) and what [encoding/json] decodes a hit into ([nil], [bool],
    [float64], [string], [[]interface{}], [map[string]interface{}]). *)
Inductive any : Type :=
  | AnyNil
  | AnyBool (b : bool)
  | AnyFloat64 (f : spec_float)
  | AnyInt (n : Z)
  | AnyInt64 (n : Z)
  | AnyString (s : string)
  | AnyStrings (l : list string)
  | AnySlice (l : list any)
  | AnyMap (m : gmap string any).

(** Two's-complement wrap-around of 64-bit signed arithmetic. *)
Definition wrap64 (x : Z) : Z := (x + 2 ^ 63) mod 2 ^ 64 - 2 ^ 63.

Module time.

(** A [time.Time] through its two accessors: [unixSec], the seconds since
    the Unix epoch, and [nsec], the nanoseconds within the second. *)
Record Time : Type := mkTime { unixSec : Z; nsec : Z }.

(** [time.Unix]: the nanoseconds are brought into [0, 1e9). *)
Definition Unix (sec nsec : Z) : Time :=
  if (nsec <? 0) || (nsec >=? 10 ^ 9) then
    let n := Z.quot nsec (10 ^ 9) in
    let sec := wrap64 (sec + n) in
    let nsec := nsec - n * 10 ^ 9 in
    if nsec <? 0 then mkTime (wrap64 (sec - 1)) (nsec + 10 ^ 9)
    else mkTime sec nsec
  else mkTime sec nsec.

(** [time.UnixMicro]: the instant [usec] microseconds after the epoch. *)
Definition UnixMicro (usec : Z) : Time :=
  Unix (Z.quot usec (10 ^ 6)) (Z.rem usec (10 ^ 6) * 10 ^ 3).

(** The method [Time.UnixMicro]: microseconds since the epoch, in [int64]
    arithmetic. *)
Definition Time_UnixMicro (t : Time) : Z :=
  wrap64 (wrap64 (unixSec t * 10 ^ 6) + Z.quot (nsec t) (10 ^ 3)).

(** The Unix epoch, 1970-01-01T00:00:00Z. *)
Definition epoch : Time := mkTime 0 0.

End time.

(** The conversion [int64(f)] of a [float64]: the fraction is dropped.  Go
    leaves the result open when the value does not fit (or is not a number);
    [-2^63] is what amd64 gives. *)
Definition int64_of_float64 (f : spec_float) : Z :=
  match f with
  | S754_zero _ => 0
  | S754_finite s m e =>
      let mag := if (0 <=? e) then Z.shiftl (Z.pos m) e else Z.shiftr (Z.pos m) (- e) in
      let v := if s then - mag else mag in
      if (- 2 ^ 63 <=? v) && (v <? 2 ^ 63) then v else - 2 ^ 63
  | S754_infinity _ | S754_nan => - 2 ^ 63
  end.

(** ** net/http as the adapter uses it *)

Module http.

(** An outgoing request: what [http.NewRequestWithContext], [Header.Set] and
    [SetBasicAuth] put into it. *)
Record Request : Type := mkRequest {
  Method : string;
  URL : string;
  Body : option string;
  ContentType : option string;
  BasicAuth : option (string * string)
}.

(** An answer of the backend: its status code and what [io.ReadAll] gets
    from its body, the bytes or a read error. *)
Record Response : Type := mkResponse {
  StatusCode : Z;
  ReadAll : result string
}.

Definition StatusOK : Z := 200.
Definition StatusCreated : Z := 201.
Definition StatusNoContent : Z := 204.
Definition StatusBadRequest : Z := 400.
Definition StatusInternalServerError : Z := 500.

(** [req.Header.Set] of the content type. *)
Definition SetContentType (req : Request) (value : string) : Request :=
  mkRequest (Method req) (URL req) (Body req) (Some value) (BasicAuth req).

(** [req.SetBasicAuth] *)
Definition SetBasicAuth (req : Request) (username password : string) : Request :=
  mkRequest (Method req) (URL req) (Body req) (ContentType req)
            (Some (username, password)).

(** An incoming request as the handlers read it: the wildcards of the
    matched route and the body. *)
Record ServerRequest : Type := mkServerRequest {
  PathValue : string -> string;
  RequestBody : string
}.

(** What a handler leaves in its [http.ResponseWriter]. *)
Record Written : Type := mkWritten {
  Code : Z;
  WrittenContentType : string;
  WrittenBody : string
}.

(** [http.Error]: a plain-text reply with the given code. *)
Definition Error (error : string) (code : Z) : Written :=
  mkWritten code "text/plain; charset=utf-8" (error +:+ String "010"%char EmptyString).

End http.

(** The [%d] verb of [fmt] on an integer. *)
Definition itoa (n : Z) : string := NilZero.string_of_int (Z.to_int n).

(** ** Runs of the adapter *)

Section Runs.

(** The world outside the adapter. *)
Variable Backend : Type.

(** What a run has done so far: the state of the backend and the requests
    handed to [Do], oldest first. *)
Record World : Type := mkWorld {
  backend : Backend;
  sent : list http.Request
}.

(** Computations of the client: they may fail with an error and they act
    on the world. *)
Definition IO (A : Type) : Type := World -> result A * World.

Definition ret {A : Type} (a : A) : IO A := fun w => (Ok a, w).

Definition fail {A : Type} (msg : string) : IO A := fun w => (Err msg, w).

Definition bind {A B : Type} (m : IO A) (k : A -> IO B) : IO B :=
  fun w =>
    match m w with
    | (Ok a, w') => k a w'
    | (Err msg, w') => (Err msg, w')
    end.

(** [if err != nil { return fmt.Errorf(prefix + ": %w", err) }] *)
Definition wrapError {A : Type} (prefix : string) (m : IO A) : IO A :=
  fun w =>
    match m w with
    | (Ok a, w') => (Ok a, w')
    | (Err msg, w') => (Err (prefix +:+ ": " +:+ msg), w')
    end.

Definition lift {A : Type} (r : result A) : IO A := fun w => (r, w).

End Runs.

Arguments mkWorld {Backend} backend sent.
Arguments backend {Backend} w.
Arguments sent {Backend} w.
Arguments ret {Backend A} a w.
Arguments fail {Backend A} msg w.
Arguments bind {Backend A B} m k w.
Arguments wrapError {Backend A} prefix m w.
Arguments lift {Backend A} r w.

Notation "x <- c1 ;; c2" := (bind c1 (fun x => c2))
  (at level 100, c1 at next level, right associativity).

(** * Package openobserve *)

Module openobserve.

(** ** queries.go: escaping *)

(** The bytes the escaper looks for. *)
Definition backslash : ascii := "\"%char.
Definition quote : ascii := "'"%char.

(** [escapeSQLString] escapes backslashes and single quotes in a value
    that is interpolated into a single-quoted SQL string. *)
Definition escapeSQLString (value : string) : string :=
  let value := strings.ReplaceAll value "\" "\\" in
  let value := strings.ReplaceAll value "'" "''" in
  value.

(** *** Specification vocabulary for the escaper *)

(** What the escaper does to one byte. *)
Definition escapeByte (c : ascii) : string :=
  if Ascii.eqb c backslash then "\\"
  else if Ascii.eqb c quote then "''"
  else String c EmptyString.

(** The first substitution alone: backslashes doubled. *)
Definition doubleBackslash (c : ascii) : string :=
  if Ascii.eqb c backslash then "\\" else String c EmptyString.

(** Byte-wise substitution. *)
Fixpoint flatMap (f : ascii -> string) (s : string) : string :=
  match s with
  | EmptyString => EmptyString
  | String c s' => f c +:+ flatMap f s'
  end.

(** The two substitutions of [escapeSQLString] reversed: doubled quotes
    back to one quote, then doubled backslashes back to one backslash. *)
Definition unescapeSQLString (escaped : string) : string :=
  let escaped := strings.ReplaceAll escaped "''" "'" in
  let escaped := strings.ReplaceAll escaped "\\" "\" in
  escaped.

(** How a SQL lexer reads the text between the quotes of a single-quoted
    literal when a doubled quote is the only escape: [Some] of the denoted
    text when all of [body] is read, [None] when a quote inside [body] is
    not doubled and so closes the literal before its end. *)
Fixpoint sqlLiteralBody (body : string) : option string :=
  match body with
  | EmptyString => Some EmptyString
  | String c rest =>
      if Ascii.eqb c quote then
        match rest with
        | String c' rest' =>
            if Ascii.eqb c' quote
            then option_map (String quote) (sqlLiteralBody rest')
            else None
        | EmptyString => None
        end
      else option_map (String c) (sqlLiteralBody rest)
  end.

(** The same for a lexer that also takes a backslash as an escape of the
    byte after it: a backslash at the very end would escape the closing
    quote, so it too is a failure. *)
Fixpoint sqlLiteralBodyBackslash (body : string) : option string :=
  match body with
  | EmptyString => Some EmptyString
  | String c rest =>
      if Ascii.eqb c backslash then
        match rest with
        | String c' rest' => option_map (String c') (sqlLiteralBodyBackslash rest')
        | EmptyString => None
        end
      else if Ascii.eqb c quote then
        match rest with
        | String c' rest' =>
            if Ascii.eqb c' quote
            then option_map (String quote) (sqlLiteralBodyBackslash rest')
            else None
        | EmptyString => None
        end
      else option_map (String c) (sqlLiteralBodyBackslash rest)
  end.

(** ** The adapter's structs *)

Module ComponentLogsParams.
(** Parameters of a component log query. *)
Record t : Type := mk {
  ComponentIDs : list string;
  EnvironmentID : string;
  ProjectID : string;
  StartTime : time.Time;
  EndTime : time.Time;
  SearchPhrase : string;
  LogLevels : list string;
  Limit : Z;
  SortOrder : string
}.
End ComponentLogsParams.

Module LogAlertParams.
(** Parameters of a log alert. *)
Record t : Type := mk {
  Name : string;
  SearchPattern : string;
  ThresholdValue : Z;
  Duration : Z;
  Frequency : Z
}.

(** The assignment [params.Name = name]. *)
Definition setName (name : string) (p : t) : t :=
  mk name (SearchPattern p) (ThresholdValue p) (Duration p) (Frequency p).
End LogAlertParams.

Module ComponentLogsEntry.
(** A parsed log entry. *)
Record t : Type := mk {
  Timestamp : time.Time;
  Log : string;
  LogLevel : string;
  ComponentID : string;
  EnvironmentID : string;
  ProjectID : string;
  Namespace : string;
  PodID : string;
  ContainerName : string;
  Labels : gmap string string
}.
End ComponentLogsEntry.

Module ComponentLogsResult.
(** The result of a component log query. *)
Record t : Type := mk {
  Logs : list ComponentLogsEntry.t;
  TotalCount : Z;
  Took : Z
}.
End ComponentLogsResult.

Module OpenObserveResponse.
(** The decoded answer of the search endpoint. *)
Record t : Type := mk {
  Took : Z;
  Hits : list (gmap string any);
  Total : Z
}.
End OpenObserveResponse.

Module AlertListItem.
(** One element of the [list] field of the alert listing. *)
Record t : Type := mk {
  AlertID : string;
  Name : string
}.
End AlertListItem.

(** ** queries.go: the query builder *)

(** The double quote, byte 34. *)
Definition dquote : string := String "034"%char EmptyString.

Section QueryBuilder.

(** [encoding/json.Marshal] on the documents the builder renders. *)
Variable Marshal : any -> result string.

Import LogAlertParams ComponentLogsParams.

(** The [query] of [generateAlertConfig]:
    [fmt.Sprintf] of the count query over the stream. *)
Definition alertQuery (params : LogAlertParams.t) (streamName : string) : string :=
  "SELECT count(*) as " +:+ "match_count" +:+ " FROM " +:+ dquote +:+ streamName
    +:+ dquote +:+ " WHERE str_match(log, '"
    +:+ escapeSQLString (SearchPattern params) +:+ "')".

(** The [alertConfig] map of [generateAlertConfig]. *)
Definition alertConfig (params : LogAlertParams.t) (streamName : string)
  : gmap string any :=
  list_to_map [
    ("name", AnyString (Name params));
    ("stream_name", AnyString streamName);
    ("query", AnyString (alertQuery params streamName));
    ("condition", AnyMap (list_to_map [
        ("column", AnyString "match_count");
        ("operator", AnyString ">");
        ("value", AnyInt (ThresholdValue params)) ]));
    ("duration", AnyInt (Duration params));
    ("frequency", AnyInt (Frequency params));
    ("is_realtime", AnyString "no");
    ("destinations", AnyStrings ["openchoreo_alerts"]);
    ("alert_type", AnyString "scheduled") ].

(** [generateAlertConfig] generates an OpenObserve alert configuration as
    JSON. *)
Definition generateAlertConfig (params : LogAlertParams.t) (streamName : string)
  : result string :=
  Marshal (AnyMap (alertConfig params streamName)).

(** The equality on the component label of [generateComponentLogsQuery]. *)
Definition componentCondition (id : string) : string :=
  "kubernetes_labels_openchoreo_dev_component_uid = '" +:+ escapeSQLString id +:+ "'".

(** The equality on the log level. *)
Definition levelCondition (level : string) : string :=
  "logLevel = '" +:+ escapeSQLString level +:+ "'".

(** The equalities on the project and environment labels. *)
Definition projectCondition (params : ComponentLogsParams.t) : string :=
  "kubernetes_labels_openchoreo_dev_project_uid = '"
    +:+ escapeSQLString (ProjectID params) +:+ "'".

Definition environmentCondition (params : ComponentLogsParams.t) : string :=
  "kubernetes_labels_openchoreo_dev_environment_uid = '"
    +:+ escapeSQLString (EnvironmentID params) +:+ "'".

(** The substring condition on the log text. *)
Definition searchCondition (params : ComponentLogsParams.t) : string :=
  "log LIKE '%" +:+ escapeSQLString (SearchPhrase params) +:+ "%'".

(** The [conditions] slice of [generateComponentLogsQuery] once all the
    optional filters are appended. *)
Definition componentLogsConditions (params : ComponentLogsParams.t) : list string :=
  let conditions := [ projectCondition params; environmentCondition params ] in
  (* optional component IDs filter: if this is empty, the logs of all the
     components of the project and environment are returned *)
  let conditions :=
    if (0 <? length (ComponentIDs params))%nat then
      let componentConditions := map componentCondition (ComponentIDs params) in
      (conditions ++ ["(" +:+ strings.Join componentConditions " OR " +:+ ")"])%list
    else conditions in
  (* search phrase filter *)
  let conditions :=
    if negb (String.eqb (SearchPhrase params) EmptyString) then
      (conditions ++ [searchCondition params])%list
    else conditions in
  (* log levels filter *)
  let conditions :=
    if (0 <? length (LogLevels params))%nat then
      let levelConditions := map levelCondition (LogLevels params) in
      (conditions ++ ["(" +:+ strings.Join levelConditions " OR " +:+ ")"])%list
    else conditions in
  conditions.

(** The [sql] of [generateComponentLogsQuery]: the filter and the sort
    order, the latter from a white list of two spellings. *)
Definition componentLogsSQL (params : ComponentLogsParams.t) (stream : string) : string :=
  let sql := "SELECT * FROM " +:+ stream +:+ " WHERE "
               +:+ strings.Join (componentLogsConditions params) " AND " in
  if String.eqb (SortOrder params) "ASC" || String.eqb (SortOrder params) "asc"
  then sql +:+ " ORDER BY _timestamp ASC"
  else sql +:+ " ORDER BY _timestamp DESC".

(** The [limit] of [generateComponentLogsQuery]. *)
Definition effectiveLimit (params : ComponentLogsParams.t) : Z :=
  let limit := Limit params in
  if limit <=? 0 then 100 else limit.

(** The [query] map of [generateComponentLogsQuery]. *)
Definition componentLogsQuery (params : ComponentLogsParams.t) (stream : string)
  : gmap string any :=
  list_to_map [
    ("query", AnyMap (list_to_map [
        ("sql", AnyString (componentLogsSQL params stream));
        ("start_time", AnyInt64 (time.Time_UnixMicro (StartTime params)));
        ("end_time", AnyInt64 (time.Time_UnixMicro (EndTime params)));
        ("from", AnyInt 0);
        ("size", AnyInt (effectiveLimit params)) ]));
    ("timeout", AnyInt 0) ].

(** [generateComponentLogsQuery] generates the OpenObserve query for
    application logs. *)
Definition generateComponentLogsQuery (params : ComponentLogsParams.t) (stream : string)
  : result string :=
  Marshal (AnyMap (componentLogsQuery params stream)).

End QueryBuilder.

(** Reading a field of a rendered document. *)
Definition field (doc : gmap string any) (key : string) : option any := doc !! key.

(** Reading a field of the nested [query] object of a search document. *)
Definition queryField (doc : gmap string any) (key : string) : option any :=
  match doc !! "query" with
  | Some (AnyMap q) => q !! key
  | _ => None
  end.

(** *** Specification vocabulary for the filter *)

Section FilterVocabulary.

Import ComponentLogsParams.

(** The part of the filter before the sort clause. *)
Definition selectWhere (params : ComponentLogsParams.t) (stream : string) : string :=
  "SELECT * FROM " +:+ stream +:+ " WHERE "
    +:+ strings.Join (componentLogsConditions params) " AND ".

(** An OR-group over equalities. *)
Definition orGroup (equalities : list string) : string :=
  "(" +:+ strings.Join equalities " OR " +:+ ")".

(** The search-phrase condition, when a phrase is given. *)
Definition searchPhraseFilter (params : ComponentLogsParams.t) : list string :=
  if String.eqb (SearchPhrase params) EmptyString then [] else [searchCondition params].

(** The group over the log levels, when levels are given. *)
Definition logLevelsFilter (params : ComponentLogsParams.t) : list string :=
  match LogLevels params with
  | [] => []
  | levels => [orGroup (map levelCondition levels)]
  end.

(** A condition is a clause on the component label when it starts, inside
    its group or not, with that column. *)
Definition isComponentClause (condition : string) : bool :=
  strings.HasPrefix condition "kubernetes_labels_openchoreo_dev_component_uid"
  || strings.HasPrefix condition "(kubernetes_labels_openchoreo_dev_component_uid".

(** ASCII lower case of a byte. *)
Definition toLower (c : ascii) : ascii :=
  let n := nat_of_ascii c in
  if ((65 <=? n) && (n <=? 90))%nat then ascii_of_nat (n + 32) else c.

(** Equality of two strings up to the case of ASCII letters, the
    case-insensitive match of the specification. *)
Fixpoint EqualFold (s t : string) : bool :=
  match s, t with
  | EmptyString, EmptyString => true
  | String a s', String b t' => Ascii.eqb (toLower a) (toLower b) && EqualFold s' t'
  | _, _ => false
  end.

(** The sort clause as the specification words it: ascending on a
    case-insensitive match of asc, descending otherwise. *)
Definition sortClauseCaseInsensitive (sortOrder : string) : string :=
  if EqualFold sortOrder "asc" then " ORDER BY _timestamp ASC"
  else " ORDER BY _timestamp DESC".

End FilterVocabulary.

(** ** The backend client *)

(** The configuration a [Client] holds; its [http.Client] is the function
    [Do] below. *)
Record Client : Type := mkClient {
  baseURL : string;
  org : string;
  stream : string;
  user : string;
  token : string
}.

(** The linear scan of [getAlertIDByName] over the decoded listing: the ID
    of the first alert whose name is the one looked for. *)
Fixpoint scanAlertList (list : list AlertListItem.t) (name : string) : option string :=
  match list with
  | [] => None
  | alert :: rest =>
      if String.eqb (AlertListItem.Name alert) name
      then Some (AlertListItem.AlertID alert)
      else scanAlertList rest name
  end.

(** The requests of the alert API as the client builds them. *)
Definition alertsURL (c : Client) : string :=
  baseURL c +:+ "/api/v2/" +:+ org c +:+ "/alerts".

Definition listRequest (c : Client) : http.Request :=
  http.mkRequest "GET" (alertsURL c) None None (Some (user c, token c)).

Definition alertURL (c : Client) (alertID : string) : string :=
  baseURL c +:+ "/api/v2/" +:+ org c +:+ "/alerts/" +:+ alertID.

Definition deleteRequest (c : Client) (alertID : string) : http.Request :=
  http.mkRequest "DELETE" (alertURL c alertID) None None (Some (user c, token c)).

Definition createRequest (c : Client) (alertJSON : string) : http.Request :=
  http.mkRequest "POST" (alertsURL c) (Some alertJSON) (Some "application/json")
                 (Some (user c, token c)).

Section Adapter.

(** The world outside the adapter and the library functions the embedding
    does not read into. *)
Variable Backend : Type.

(** [httpClient.Do]: the backend answers, or the transport fails; either
    way the backend may have changed. *)
Variable Do : http.Request -> Backend -> result http.Response * Backend.

(** The error of [net/url.Parse] on a raw URL, if it has one: the only way
    [http.NewRequestWithContext] fails for the adapter's methods. *)
Variable parseURLError : string -> option string.

(** [strconv.Quote], the [%q] verb of [fmt]. *)
Variable Quote : string -> string.

(** [encoding/json]: rendering a document, and decoding the alert listing
    and the search answer. *)
Variable Marshal : any -> result string.
Variable UnmarshalAlertList : string -> result (list AlertListItem.t).
Variable UnmarshalSearchResponse : string -> result OpenObserveResponse.t.

(** [http.NewRequestWithContext] *)
Definition NewRequestWithContext (method url : string) (body : option string)
  : IO Backend http.Request :=
  match parseURLError url with
  | Some err => fail err
  | None => ret (http.mkRequest method url body None None)
  end.

(** [c.httpClient.Do(req)]: the request goes out and is recorded. *)
Definition httpDo (req : http.Request) : IO Backend http.Response :=
  fun w =>
    let '(resp, b) := Do req (backend w) in
    (resp, mkWorld b (sent w ++ [req])%list).

(** [executeSearchQuery] executes a search query against OpenObserve and
    returns the parsed response. *)
Definition executeSearchQuery (c : Client) (queryJSON : string)
  : IO Backend OpenObserveResponse.t :=
  let url := baseURL c +:+ "/api/" +:+ org c +:+ "/_search" in
  req <- wrapError "failed to create request"
           (NewRequestWithContext "POST" url (Some queryJSON)) ;;
  let req := http.SetContentType req "application/json" in
  let req := http.SetBasicAuth req (user c) (token c) in
  resp <- wrapError "failed to execute request" (httpDo req) ;;
  body <- wrapError "failed to read response body" (lift (http.ReadAll resp)) ;;
  if negb (http.StatusCode resp =? http.StatusOK) then
    fail ("openobserve returned status " +:+ itoa (http.StatusCode resp)
            +:+ ": " +:+ body)
  else
    openObserveResp <- wrapError "failed to unmarshal response"
                         (lift (UnmarshalSearchResponse body)) ;;
    ret openObserveResp.

Import ComponentLogsEntry.

Definition setLog (v : string) (e : ComponentLogsEntry.t) : ComponentLogsEntry.t :=
  mk (Timestamp e) v (LogLevel e) (ComponentID e) (EnvironmentID e) (ProjectID e)
     (Namespace e) (PodID e) (ContainerName e) (Labels e).
Definition setLogLevel (v : string) (e : ComponentLogsEntry.t) : ComponentLogsEntry.t :=
  mk (Timestamp e) (Log e) v (ComponentID e) (EnvironmentID e) (ProjectID e)
     (Namespace e) (PodID e) (ContainerName e) (Labels e).
Definition setComponentID (v : string) (e : ComponentLogsEntry.t) : ComponentLogsEntry.t :=
  mk (Timestamp e) (Log e) (LogLevel e) v (EnvironmentID e) (ProjectID e)
     (Namespace e) (PodID e) (ContainerName e) (Labels e).
Definition setEnvironmentID (v : string) (e : ComponentLogsEntry.t) : ComponentLogsEntry.t :=
  mk (Timestamp e) (Log e) (LogLevel e) (ComponentID e) v (ProjectID e)
     (Namespace e) (PodID e) (ContainerName e) (Labels e).
Definition setProjectID (v : string) (e : ComponentLogsEntry.t) : ComponentLogsEntry.t :=
  mk (Timestamp e) (Log e) (LogLevel e) (ComponentID e) (EnvironmentID e) v
     (Namespace e) (PodID e) (ContainerName e) (Labels e).
Definition setNamespace (v : string) (e : ComponentLogsEntry.t) : ComponentLogsEntry.t :=
  mk (Timestamp e) (Log e) (LogLevel e) (ComponentID e) (EnvironmentID e) (ProjectID e)
     v (PodID e) (ContainerName e) (Labels e).
Definition setPodID (v : string) (e : ComponentLogsEntry.t) : ComponentLogsEntry.t :=
  mk (Timestamp e) (Log e) (LogLevel e) (ComponentID e) (EnvironmentID e) (ProjectID e)
     (Namespace e) v (ContainerName e) (Labels e).
Definition setContainerName (v : string) (e : ComponentLogsEntry.t) : ComponentLogsEntry.t :=
  mk (Timestamp e) (Log e) (LogLevel e) (ComponentID e) (EnvironmentID e) (ProjectID e)
     (Namespace e) (PodID e) v (Labels e).
(** [entry.Labels[k] = v] *)
Definition setLabel (k v : string) (e : ComponentLogsEntry.t) : ComponentLogsEntry.t :=
  mk (Timestamp e) (Log e) (LogLevel e) (ComponentID e) (EnvironmentID e) (ProjectID e)
     (Namespace e) (PodID e) (ContainerName e) (<[k := v]> (Labels e)).

(** [if x, ok := source[key].(string); ok { entry.F = x }] *)
Definition assignString (source : gmap string any) (key : string)
    (set : string -> ComponentLogsEntry.t -> ComponentLogsEntry.t)
    (entry : ComponentLogsEntry.t) : ComponentLogsEntry.t :=
  match source !! key with
  | Some (AnyString x) => set x entry
  | _ => entry
  end.

(** [parseApplicationLogEntry] parses an application log from an
    OpenObserve response. *)
Definition parseApplicationLogEntry (timestamp : Z) (source : gmap string any)
  : ComponentLogsEntry.t :=
  let entry := mk (time.UnixMicro timestamp) EmptyString EmptyString EmptyString
                  EmptyString EmptyString EmptyString EmptyString EmptyString ∅ in
  (* fields, by type assertion *)
  let entry := assignString source "log" setLog entry in
  let entry := assignString source "logLevel" setLogLevel entry in
  let entry := assignString source "kubernetes_labels_openchoreo_dev_component_uid"
                 setComponentID entry in
  let entry := assignString source "kubernetes_labels_openchoreo_dev_environment_uid"
                 setEnvironmentID entry in
  let entry := assignString source "kubernetes_labels_openchoreo_dev_project_uid"
                 setProjectID entry in
  let entry := assignString source "kubernetes_namespace_name" setNamespace entry in
  let entry := assignString source "kubernetes_pod_id" setPodID entry in
  let entry := assignString source "kubernetes_container_name" setContainerName entry in
  (* labels, if present *)
  match source !! "labels" with
  | Some (AnyMap labels) =>
      map_fold (fun k v entry =>
                  match v with
                  | AnyString strVal => setLabel k strVal entry
                  | _ => entry
                  end) entry labels
  | _ => entry
  end.

(** The body of the loop of [GetComponentLogs] over the hits. *)
Definition hitTimestamp (hit : gmap string any) : Z :=
  let timestamp := 0 in
  match hit !! "_timestamp" with
  | Some (AnyFloat64 ts) => int64_of_float64 ts
  | _ => timestamp
  end.

Definition hitEntry (hit : gmap string any) : ComponentLogsEntry.t :=
  parseApplicationLogEntry (hitTimestamp hit) hit.

Definition GetComponentLogs (c : Client) (params : ComponentLogsParams.t)
  : IO Backend ComponentLogsResult.t :=
  queryJSON <- wrapError "failed to marshal query"
                 (lift (generateComponentLogsQuery Marshal params (stream c))) ;;
  openObserveResp <- executeSearchQuery c queryJSON ;;
  let logs := map hitEntry (OpenObserveResponse.Hits openObserveResp) in
  ret (ComponentLogsResult.mk logs
         (OpenObserveResponse.Total openObserveResp)
         (OpenObserveResponse.Took openObserveResp)).

(** [CreateAlert] creates an alert in OpenObserve. *)
Definition CreateAlert (c : Client) (params : LogAlertParams.t) : IO Backend unit :=
  alertJSON <- wrapError "failed to generate alert config"
                 (lift (generateAlertConfig Marshal params (stream c))) ;;
  let url := baseURL c +:+ "/api/v2/" +:+ org c +:+ "/alerts" in
  req <- wrapError "failed to create request"
           (NewRequestWithContext "POST" url (Some alertJSON)) ;;
  let req := http.SetContentType req "application/json" in
  let req := http.SetBasicAuth req (user c) (token c) in
  resp <- wrapError "failed to execute request" (httpDo req) ;;
  body <- wrapError "failed to read response body" (lift (http.ReadAll resp)) ;;
  if negb (http.StatusCode resp =? http.StatusOK)
     && negb (http.StatusCode resp =? http.StatusCreated) then
    fail ("openobserve returned status " +:+ itoa (http.StatusCode resp)
            +:+ ": " +:+ body)
  else ret tt.

(** The message of the error [getAlertIDByName] ends with when no alert of
    the listing has the name. *)
Definition alertNotFound (name : string) : string :=
  "alert " +:+ Quote name +:+ " not found".

(** [getAlertIDByName] looks up an alert's ID by its name using the v2 list
    alerts API. *)
Definition getAlertIDByName (c : Client) (name : string) : IO Backend string :=
  let url := baseURL c +:+ "/api/v2/" +:+ org c +:+ "/alerts" in
  req <- wrapError "failed to create request"
           (NewRequestWithContext "GET" url None) ;;
  let req := http.SetBasicAuth req (user c) (token c) in
  resp <- wrapError "failed to execute request" (httpDo req) ;;
  body <- wrapError "failed to read response body" (lift (http.ReadAll resp)) ;;
  if negb (http.StatusCode resp =? http.StatusOK) then
    fail ("openobserve returned status " +:+ itoa (http.StatusCode resp)
            +:+ ": " +:+ body)
  else
    result <- wrapError "failed to unmarshal response" (lift (UnmarshalAlertList body)) ;;
    match scanAlertList result name with
    | Some alertID => ret alertID
    | None => fail (alertNotFound name)
    end.

(** [DeleteAlert] deletes an alert from OpenObserve by name.  It first
    looks up the alert ID by name using the list API, then deletes by ID. *)
Definition DeleteAlert (c : Client) (alertName : string) : IO Backend unit :=
  alertID <- wrapError ("failed to find alert " +:+ Quote alertName)
               (getAlertIDByName c alertName) ;;
  let url := baseURL c +:+ "/api/v2/" +:+ org c +:+ "/alerts/" +:+ alertID in
  req <- wrapError "failed to create request"
           (NewRequestWithContext "DELETE" url None) ;;
  let req := http.SetBasicAuth req (user c) (token c) in
  resp <- wrapError "failed to execute request" (httpDo req) ;;
  body <- wrapError "failed to read response body" (lift (http.ReadAll resp)) ;;
  if negb (http.StatusCode resp =? http.StatusOK)
     && negb (http.StatusCode resp =? http.StatusNoContent) then
    fail ("openobserve returned status " +:+ itoa (http.StatusCode resp)
            +:+ ": " +:+ body)
  else ret tt.

(** The listing is there: the URL is well formed and the backend answers
    the listing request with 200 and a body that decodes to [alerts],
    leaving the backend as [b']. *)
Definition listingIs (c : Client) (w : World Backend) (b' : Backend)
    (alerts : list AlertListItem.t) : Prop :=
  parseURLError (alertsURL c) = None
  /\ exists resp body,
       Do (listRequest c) (backend w) = (Ok resp, b')
       /\ http.StatusCode resp = http.StatusOK
       /\ http.ReadAll resp = Ok body
       /\ UnmarshalAlertList body = Ok alerts.

End Adapter.

(** *** Specification vocabulary for the client *)

(** The string held under a key of a hit, the empty string when the key is
    missing or holds something else. *)
Definition stringField (source : gmap string any) (key : string) : string :=
  match source !! key with
  | Some (AnyString s) => s
  | _ => EmptyString
  end.

(** The string a value is, if it is one. *)
Definition stringValue (v : any) : option string :=
  match v with
  | AnyString s => Some s
  | _ => None
  end.

(** The string-valued entries of the nested labels object of a hit. *)
Definition stringLabels (source : gmap string any) : gmap string string :=
  match source !! "labels" with
  | Some (AnyMap labels) => omap stringValue labels
  | _ => ∅
  end.

(** ** The rest of the client *)

(** [NewClient]; the [http.Client] with its timeout of 30 seconds and the
    logger are not part of the record. *)
Definition NewClient (baseURL org stream user token : string) : Client :=
  mkClient (strings.TrimSuffix baseURL "/") org stream user token.

(** The request of the search API as [executeSearchQuery] builds it. *)
Definition searchURL (c : Client) : string :=
  baseURL c +:+ "/api/" +:+ org c +:+ "/_search".

Definition searchRequest (c : Client) (queryJSON : string) : http.Request :=
  http.mkRequest "POST" (searchURL c) (Some queryJSON) (Some "application/json")
                 (Some (user c, token c)).

(** The message of the error of a status the client does not accept. *)
Definition statusError (resp : http.Response) (body : string) : string :=
  "openobserve returned status " +:+ itoa (http.StatusCode resp) +:+ ": " +:+ body.

(** What an exchange with the backend comes to once the answer is there:
    the body is read, then the status is looked at. *)
Definition answered {A : Type} (accepted : Z -> bool) (resp : http.Response)
    (k : string -> result A) : result A :=
  match http.ReadAll resp with
  | Err err => Err ("failed to read response body: " +:+ err)
  | Ok body =>
      if accepted (http.StatusCode resp) then k body
      else Err (statusError resp body)
  end.

(** A request carries the credentials of the client. *)
Definition authenticated (c : Client) (req : http.Request) : Prop :=
  http.BasicAuth req = Some (user c, token c).

(** The number of bytes of a value the escaper doubles. *)
Fixpoint escapedBytes (s : string) : nat :=
  match s with
  | EmptyString => 0
  | String c s' =>
      (if Ascii.eqb c backslash || Ascii.eqb c quote then 1 else 0) + escapedBytes s'
  end.

(** Whether a SQL lexer that has read [s] is inside a single-quoted
    literal, given whether it was before: every quote opens or closes one
    (a doubled quote closes and opens again). *)
Fixpoint endsInLiteral (inside : bool) (s : string) : bool :=
  match s with
  | EmptyString => inside
  | String c s' => endsInLiteral (if Ascii.eqb c quote then negb inside else inside) s'
  end.

(** A string is balanced when reading it leaves a lexer where it was,
    inside a literal or outside. *)
Definition balanced (s : string) : Prop :=
  forall inside, endsInLiteral inside s = inside.

(** The keys of a hit that [GetComponentLogs] and
    [parseApplicationLogEntry] read. *)
Definition hitKeys : list string :=
  [ "_timestamp"; "log"; "logLevel";
    "kubernetes_labels_openchoreo_dev_component_uid";
    "kubernetes_labels_openchoreo_dev_environment_uid";
    "kubernetes_labels_openchoreo_dev_project_uid";
    "kubernetes_namespace_name"; "kubernetes_pod_id";
    "kubernetes_container_name"; "labels" ].

End openobserve.

Import openobserve.

(** * The libraries of the service start-up *)

Module strconv.

(** The decimal digits of [s] read onto [acc]; [None] at a byte that is
    not a digit. *)
Fixpoint digits (acc : Z) (s : string) : option Z :=
  match s with
  | EmptyString => Some acc
  | String ch s' =>
      let d := (nat_of_ascii ch - 48)%nat in
      if ((48 <=? nat_of_ascii ch) && (nat_of_ascii ch <=? 57))%nat
      then digits (acc * 10 + Z.of_nat d) s'
      else None
  end.

(** The messages of a [*strconv.NumError] of [Atoi]. *)
Definition syntaxError (Quote : string -> string) (s : string) : string :=
  "strconv.Atoi: parsing " +:+ Quote s +:+ ": invalid syntax".

Definition rangeError (Quote : string -> string) (s : string) : string :=
  "strconv.Atoi: parsing " +:+ Quote s +:+ ": value out of range".

(** [strconv.Atoi]: an optional sign and decimal digits, no underscores,
    within the 64 bits of [int]. *)
Definition Atoi (Quote : string -> string) (s : string) : result Z :=
  match s with
  | EmptyString => Err (syntaxError Quote s)
  | String c rest =>
      let neg := Ascii.eqb c "-" in
      let body := if Ascii.eqb c "-" || Ascii.eqb c "+" then rest else s in
      match body with
      | EmptyString => Err (syntaxError Quote s)
      | String _ _ =>
          match digits 0 body with
          | None => Err (syntaxError Quote s)
          | Some n =>
              let n := if neg then - n else n in
              if (- 2 ^ 63 <=? n) && (n <? 2 ^ 63) then Ok n
              else Err (rangeError Quote s)
          end
      end
  end.

End strconv.

Module slog.

(** The levels of [log/slog]. *)
Definition LevelDebug : Z := -4.
Definition LevelInfo : Z := 0.
Definition LevelWarn : Z := 4.
Definition LevelError : Z := 8.

End slog.

Module os.

(** [os.Getenv] on an environment: the value of the variable, empty when
    it is not set. *)
Definition Getenv (env : gmap string string) (key : string) : string :=
  match env !! key with
  | Some value => value
  | None => EmptyString
  end.

End os.

(** * Package app: the alert handlers *)

Module app.

Section Handlers.

Variable Backend : Type.
Variable Do : http.Request -> Backend -> result http.Response * Backend.
Variable parseURLError : string -> option string.

(** [encoding/json]: rendering a document and decoding the body of an
    alert creation. *)
Variable Marshal : any -> result string.
Variable DecodeLogAlertParams : string -> result LogAlertParams.t.

(** [strconv.Quote] and the decoder of the alert listing, for the client. *)
Variable Quote : string -> string.
Variable UnmarshalAlertList : string -> result (list AlertListItem.t).

Local Abbreviation CreateAlert := (CreateAlert Backend Do parseURLError Marshal).
Local Abbreviation DeleteAlert :=
  (DeleteAlert Backend Do parseURLError Quote UnmarshalAlertList).

(** [json.NewEncoder(w).Encode(v)]: the rendering and a newline; nothing
    is written when the rendering fails. *)
Definition Encode (v : any) : string :=
  match Marshal v with
  | Ok b => b +:+ String "010"%char EmptyString
  | Err _ => EmptyString
  end.

Definition message (text : string) : any :=
  AnyMap {[ "message" := AnyString text ]}.

(** A handler runs the client and writes its reply whatever the client
    returned. *)
Definition handle {A : Type} (m : IO Backend A) (k : result A -> http.Written)
  : World Backend -> http.Written * World Backend :=
  fun w => let '(r, w') := m w in (k r, w').

Definition HandleCreateAlert (c : Client) (r : http.ServerRequest)
  : World Backend -> http.Written * World Backend :=
  let ruleName := http.PathValue r "ruleName" in
  if String.eqb ruleName EmptyString then
    fun w => (http.Error "Rule name is required" http.StatusBadRequest, w)
  else
    match DecodeLogAlertParams (http.RequestBody r) with
    | Err _ => fun w => (http.Error "Invalid request body" http.StatusBadRequest, w)
    | Ok params =>
        let params := LogAlertParams.setName ruleName params in
        handle (CreateAlert c params) (fun res =>
          match res with
          | Err _ => http.Error "Failed to create alert" http.StatusInternalServerError
          | Ok _ =>
              http.mkWritten http.StatusCreated "application/json"
                (Encode (message "Alert created successfully"))
          end)
    end.

Definition HandleDeleteAlert (c : Client) (r : http.ServerRequest)
  : World Backend -> http.Written * World Backend :=
  let ruleName := http.PathValue r "ruleName" in
  if String.eqb ruleName EmptyString then
    fun w => (http.Error "Rule name is required" http.StatusBadRequest, w)
  else
    handle (DeleteAlert c ruleName) (fun res =>
      match res with
      | Err _ => http.Error "Failed to delete alert" http.StatusInternalServerError
      | Ok _ =>
          http.mkWritten http.StatusOK "application/json"
            (Encode (message "Alert deleted successfully"))
      end).

End Handlers.

Section LogsQuery.

Variable Backend : Type.
Variable Do : http.Request -> Backend -> result http.Response * Backend.
Variable parseURLError : string -> option string.
Variable Marshal : any -> result string.
Variable UnmarshalSearchResponse : string -> result OpenObserveResponse.t.

(** [encoding/json] in [HandleLogsQuery]: the [type] of the raw request,
    the parameters of a component query, and the rendering of the result
    (which fails on an instant whose year has more than four digits). *)
Variable UnmarshalType : string -> result string.
Variable UnmarshalComponentLogsParams : string -> result ComponentLogsParams.t.
Variable MarshalResult : ComponentLogsResult.t -> result string.

Local Abbreviation GetComponentLogs :=
  (GetComponentLogs Backend Do parseURLError Marshal UnmarshalSearchResponse).

(** The reply to a query type the handler does not know. *)
Definition unknownType (type : string) : string :=
  "Unknown log query type: " +:+ type +:+ ". Supported types are " +:+ dquote
    +:+ "component" +:+ dquote.

(** [HandleLogsQuery] processes the request received by
    [POST /api/v1/logs/query]: it decodes the body to find the type of the
    query, calls the client and encodes the result.  [readAll] is what
    [io.ReadAll(r.Body)] gives. *)
Definition HandleLogsQuery (c : Client) (readAll : result string)
  : World Backend -> http.Written * World Backend :=
  match readAll with
  | Err _ =>
      fun w => (http.Error "Failed to read request body" http.StatusBadRequest, w)
  | Ok body =>
      match UnmarshalType body with
      | Err _ =>
          fun w => (http.Error "Invalid request body" http.StatusBadRequest, w)
      | Ok type =>
          if String.eqb type "component" then
            match UnmarshalComponentLogsParams body with
            | Err _ =>
                fun w => (http.Error "Invalid component logs params"
                            http.StatusBadRequest, w)
            | Ok params =>
                handle Backend (GetComponentLogs c params) (fun res =>
                  match res with
                  | Err _ =>
                      http.Error "Failed to fetch component logs"
                        http.StatusInternalServerError
                  | Ok result =>
                      match MarshalResult result with
                      | Ok b =>
                          http.mkWritten http.StatusOK "application/json"
                            (b +:+ String "010"%char EmptyString)
                      | Err _ =>
                          http.Error "Failed to encode response"
                            http.StatusInternalServerError
                      end
                  end)
            end
          else
            fun w => (http.Error (unknownType type) http.StatusBadRequest, w)
      end
  end.

End LogsQuery.

(** ** Configuration *)

Module Config.
Record t : Type := mk {
  ServerPort : string;
  OpenObserveURL : string;
  OpenObserveOrg : string;
  OpenObserveStream : string;
  OpenObserveUser : string;
  OpenObservePassword : string;
  LogLevel : Z
}.
End Config.

Definition getEnv (env : gmap string string) (key defaultValue : string) : string :=
  let value := os.Getenv env key in
  if negb (String.eqb value EmptyString) then value else defaultValue.

Section LoadConfig.

(** [strconv.Quote], for the message of [strconv.Atoi], and the non-ASCII
    path of [strings.ToUpper]. *)
Variable Quote : string -> string.
Variable mapToUpper : string -> string.

(** The log level [LoadConfig] reads from [LOG_LEVEL]. *)
Definition parseLogLevel (env : gmap string string) : Z :=
  let logLevel := slog.LevelInfo in
  let level := os.Getenv env "LOG_LEVEL" in
  if negb (String.eqb level EmptyString) then
    let upper := strings.ToUpper mapToUpper level in
    if String.eqb upper "DEBUG" then slog.LevelDebug
    else if String.eqb upper "INFO" then slog.LevelInfo
    else if String.eqb upper "WARN" || String.eqb upper "WARNING" then slog.LevelWarn
    else if String.eqb upper "ERROR" then slog.LevelError
    else logLevel
  else logLevel.

(** [LoadConfig] loads configuration from environment variables. *)
Definition LoadConfig (env : gmap string string) : result Config.t :=
  let serverPort := getEnv env "SERVER_PORT" "9098" in
  let openObserveURL := getEnv env "OPENOBSERVE_URL" EmptyString in
  let openObserveOrg := getEnv env "OPENOBSERVE_ORG" "default" in
  let openObserveStream := getEnv env "OPENOBSERVE_STREAM" "default" in
  let openObserveUser := getEnv env "OPENOBSERVE_USER" EmptyString in
  let openObservePassword := getEnv env "OPENOBSERVE_PASSWORD" EmptyString in
  let logLevel := parseLogLevel env in
  if String.eqb openObserveURL EmptyString then
    Err "Environment variable OPENOBSERVE_URL is required"
  else if String.eqb openObserveUser EmptyString then
    Err "Environment variable OPENOBSERVE_USER is required"
  else if String.eqb openObservePassword EmptyString then
    Err "Environment variable OPENOBSERVE_PASSWORD is required"
  else
    match strconv.Atoi Quote serverPort with
    | Err err => Err ("invalid SERVER_PORT: " +:+ err)
    | Ok _ =>
        Ok (Config.mk serverPort openObserveURL openObserveOrg openObserveStream
              openObserveUser openObservePassword logLevel)
    end.

End LoadConfig.

End app.

Import app.

(** * Package main: the start of the service *)

Module main.

(** How the start ends: with [os.Exit], or with the server about to be
    created for a configuration and a client. *)
Inductive Outcome : Type :=
  | Exit (code : Z)
  | Serve (cfg : Config.t) (client : Client).

(** The probe of the health of OpenObserve: a plain GET, sent by a client
    of its own, without credentials. *)
Definition healthRequest (cfg : Config.t) : http.Request :=
  http.mkRequest "GET" (Config.OpenObserveURL cfg +:+ "/healthz") None None None.

Section Start.

Variable Backend : Type.
Variable Do : http.Request -> Backend -> result http.Response * Backend.
Variable parseURLError : string -> option string.
Variable Quote : string -> string.
Variable mapToUpper : string -> string.

(** [json.Unmarshal] into a [map[string]interface{}]. *)
Variable UnmarshalObject : string -> result (gmap string any).

(** [main] from its start to the point where it creates the handlers and
    the server; the server goroutine, the wait for a signal and the
    shutdown that follow are not part of the embedding. *)
Definition main (env : gmap string string)
  : World Backend -> Outcome * World Backend :=
  fun w =>
    match LoadConfig Quote mapToUpper env with
    | Err _ => (Exit 1, w)
    | Ok cfg =>
        let client :=
          NewClient (Config.OpenObserveURL cfg) (Config.OpenObserveOrg cfg)
            (Config.OpenObserveStream cfg) (Config.OpenObserveUser cfg)
            (Config.OpenObservePassword cfg) in
        (* connectivity check: the adapter cannot work without OpenObserve *)
        let healthURL := Config.OpenObserveURL cfg +:+ "/healthz" in
        match parseURLError healthURL with
        | Some _ => (Exit 1, w)
        | None =>
            let req := http.mkRequest "GET" healthURL None None None in
            let '(r, b) := Do req (backend w) in
            let w' := mkWorld b (sent w ++ [req])%list in
            match r with
            | Err _ => (Exit 1, w')
            | Ok resp =>
                match http.ReadAll resp with
                | Err _ => (Exit 1, w')
                | Ok body =>
                    if negb (http.StatusCode resp =? http.StatusOK) then (Exit 1, w')
                    else
                      match UnmarshalObject body with
                      | Err _ => (Exit 1, w')
                      | Ok healthResp =>
                          match healthResp !! "status" with
                          | Some (AnyString status) =>
                              if negb (String.eqb status "ok") then (Exit 1, w')
                              else (Serve cfg client, w')
                          | _ => (Exit 1, w')
                          end
                      end
                end
            end
        end
    end.

End Start.

End main.

(** ** A backend to run the client against *)

Module Stub.

(** The alerts the backend holds. *)
Definition Backend : Type := list AlertListItem.t.

Definition alerts : Backend :=
  [ AlertListItem.mk "id-0" "High-Error-Rate";
    AlertListItem.mk "id-1" "high-error-rate-2";
    AlertListItem.mk "id-2" "high-error-rate";
    AlertListItem.mk "id-3" "high-error-rate" ].

(** The listing and a search answer 200, a deletion 204 and a creation
    201; anything else is refused. *)
Definition Do (req : http.Request) (b : Backend) : result http.Response * Backend :=
  if String.eqb (http.Method req) "GET" then
    (Ok (http.mkResponse 200 (Ok "listing")), b)
  else if String.eqb (http.Method req) "DELETE" then
    (Ok (http.mkResponse 204 (Ok EmptyString)), b)
  else if String.eqb (http.Method req) "POST" then
    match http.Body req with
    | Some _ =>
        if strings.HasSuffix (http.URL req) "/_search"
        then (Ok (http.mkResponse 200 (Ok "hits")), b)
        else (Ok (http.mkResponse 201 (Ok EmptyString)), b)
    | None => (Ok (http.mkResponse 400 (Ok "no body")), b)
    end
  else (Err "unsupported protocol scheme", b).

Definition parseURLError (url : string) : option string := None.

Definition Quote (s : string) : string := dquote +:+ s +:+ dquote.

(** A rendering that keeps the name and the query of an alert document. *)
Definition Marshal (v : any) : result string :=
  match v with
  | AnyMap doc =>
      match doc !! "name", doc !! "query" with
      | Some (AnyString name), Some (AnyString query) => Ok (name +:+ "|" +:+ query)
      | _, _ => Ok "{}"
      end
  | _ => Err "unsupported type"
  end.

Definition UnmarshalAlertList (body : string) : result (list AlertListItem.t) :=
  if String.eqb body "listing" then Ok alerts else Err "unexpected end of JSON input".

(** One hit with every field, one wrongly typed all over, one empty. *)
Definition fullHit : gmap string any :=
  list_to_map [
    ("_timestamp", AnyFloat64 (S754_finite false 1704067200000001 0));
    ("log", AnyString "connection refused");
    ("logLevel", AnyString "ERROR");
    ("kubernetes_labels_openchoreo_dev_component_uid", AnyString "c1");
    ("kubernetes_labels_openchoreo_dev_environment_uid", AnyString "e1");
    ("kubernetes_labels_openchoreo_dev_project_uid", AnyString "p1");
    ("kubernetes_namespace_name", AnyString "ns");
    ("kubernetes_pod_id", AnyString "pod-1");
    ("kubernetes_container_name", AnyString "main");
    ("labels", AnyMap (list_to_map [
        ("app", AnyString "web"); ("replicas", AnyFloat64 (S754_finite false 3 0));
        ("tier", AnyString "front"); ("debug", AnyBool true) ])) ].

Definition badHit : gmap string any :=
  list_to_map [
    ("_timestamp", AnyString "2024-01-01T00:00:00Z");
    ("log", AnyFloat64 (S754_zero false));
    ("logLevel", AnyNil);
    ("kubernetes_pod_id", AnyBool false);
    ("labels", AnySlice [AnyString "app"]) ].

Definition UnmarshalSearchResponse (body : string) : result OpenObserveResponse.t :=
  Ok (OpenObserveResponse.mk 12 [fullHit; badHit; ∅] 3).

(** The body of scenario 3 of the specification, decoded. *)
Definition DecodeLogAlertParams (body : string) : result LogAlertParams.t :=
  if String.eqb body "body-with-name" then
    Ok (LogAlertParams.mk "name-from-body" "ERROR" 10 5 1)
  else Ok (LogAlertParams.mk EmptyString "ERROR" 10 5 1).

Definition client : Client :=
  mkClient "http://openobserve:5080" "default" "default" "root" "secret".

Definition start : World Backend := mkWorld alerts [].

(** Scenario 1 of the specification: project p1, environment e1, the first
    day of 2024, nothing else. *)
Definition scenario1 : ComponentLogsParams.t :=
  ComponentLogsParams.mk [] "e1" "p1" (time.mkTime 1704067200 0)
    (time.mkTime 1704153600 0) EmptyString [] 0 EmptyString.

End Stub.

(** ** A service to start and to query *)

Module Service.

(** A backend that is healthy and otherwise answers as the stub does. *)
Definition Do (req : http.Request) (b : Stub.Backend)
  : result http.Response * Stub.Backend :=
  if strings.HasSuffix (http.URL req) "/healthz" then
    (Ok (http.mkResponse 200 (Ok "health")), b)
  else Stub.Do req b.

(** A backend that answers 201 to everything. *)
Definition DoCreated (req : http.Request) (b : Stub.Backend)
  : result http.Response * Stub.Backend :=
  (Ok (http.mkResponse 201 (Ok "created")), b).

Definition UnmarshalObject (body : string) : result (gmap string any) :=
  if String.eqb body "health" then Ok {[ "status" := AnyString "ok" ]}
  else Err "unexpected end of JSON input".

Definition UnmarshalType (body : string) : result string :=
  if String.eqb body "component-query" then Ok "component"
  else if String.eqb body "trace-query" then Ok "trace"
  else Err "invalid character".

Definition UnmarshalComponentLogsParams (body : string)
  : result ComponentLogsParams.t :=
  Ok Stub.scenario1.

Definition MarshalResult (logs : ComponentLogsResult.t) : result string :=
  Ok ("total " +:+ itoa (ComponentLogsResult.TotalCount logs)).

(** A rendering that always fails. *)
Definition MarshalFails (v : any) : result string := Err "unsupported type".

Definition mapToUpper (s : string) : string := s.

(** An environment with a trailing slash on the URL and a port that is no
    TCP port, and one without the password. *)
Definition env : gmap string string :=
  list_to_map [
    ("OPENOBSERVE_URL", "http://openobserve:5080/");
    ("OPENOBSERVE_USER", "root");
    ("OPENOBSERVE_PASSWORD", "secret");
    ("OPENOBSERVE_ORG", EmptyString);
    ("SERVER_PORT", "70000");
    ("LOG_LEVEL", "Debug") ].

Definition envNoPassword : gmap string string :=
  list_to_map [
    ("OPENOBSERVE_URL", "http://openobserve:5080/");
    ("OPENOBSERVE_USER", "root");
    ("OPENOBSERVE_PASSWORD", EmptyString);
    ("SERVER_PORT", "not a port") ].

Definition cfg : Config.t :=
  Config.mk "70000" "http://openobserve:5080/" "default" "default" "root" "secret"
    slog.LevelDebug.

(** A request for the route of a rule name. *)
Definition ruleRequest (ruleName : string) : http.ServerRequest :=
  http.mkServerRequest
    (fun wildcard => if String.eqb wildcard "ruleName" then ruleName else EmptyString)
    "body".

End Service.

(** * Properties *)

(** ** Facts about the escaper *)

Section Escaping.

Lemma append_cons (x : ascii) (a b : string) :
  String x a +:+ b = String x (a +:+ b).
Proof. reflexivity. Qed.

Lemma append_nil_l (b : string) : EmptyString +:+ b = b.
Proof. reflexivity. Qed.

Lemma append_assoc (a b c : string) : (a +:+ b) +:+ c = a +:+ (b +:+ c).
Proof.
  induction a as [|x a IH]; [reflexivity|].
  now rewrite !append_cons, IH.
Qed.

Lemma append_nil_r (a : string) : a +:+ EmptyString = a.
Proof.
  induction a as [|x a IH]; [reflexivity|].
  now rewrite append_cons, IH.
Qed.

Lemma flatMap_app (f : ascii -> string) (a b : string) :
  flatMap f (a +:+ b) = flatMap f a +:+ flatMap f b.
Proof.
  induction a as [|x a IH]; [reflexivity|].
  rewrite append_cons. cbn [flatMap].
  now rewrite IH, append_assoc.
Qed.

Lemma flatMap_ext (f g : ascii -> string) (s : string) :
  (forall c, f c = g c) -> flatMap f s = flatMap g s.
Proof. intros E. induction s as [|x s IH]; cbn; [reflexivity | now rewrite E, IH]. Qed.

Lemma flatMap_flatMap (f g : ascii -> string) (s : string) :
  flatMap g (flatMap f s) = flatMap (fun c => flatMap g (f c)) s.
Proof.
  induction s as [|x s IH]; cbn; [reflexivity|].
  now rewrite flatMap_app, IH.
Qed.

(** Replacing a one-byte pattern is a byte-wise substitution. *)
Lemma ReplaceAll_byte (a : ascii) (new s : string) :
  strings.ReplaceAll s (String a EmptyString) new =
  flatMap (fun c => if Ascii.eqb c a then new else String c EmptyString) s.
Proof.
  unfold strings.ReplaceAll.
  induction s as [|c s IH]; [reflexivity|].
  cbn [strings.replaceFrom flatMap strings.HasPrefix String.length Nat.pred].
  destruct (Ascii.eqb c a); now rewrite IH.
Qed.

Lemma escapeSQLString_flatMap (s : string) :
  escapeSQLString s = flatMap escapeByte s.
Proof.
  unfold escapeSQLString.
  rewrite !ReplaceAll_byte, flatMap_flatMap.
  apply flatMap_ext. intros c. unfold escapeByte, backslash, quote.
  destruct (Ascii.eqb c "\") eqn:Hb.
  - apply Ascii.eqb_eq in Hb. now subst c.
  - cbn. destruct (Ascii.eqb c "'"); reflexivity.
Qed.

Lemma ReplaceAll_backslash (s : string) :
  strings.ReplaceAll s "\" "\\" = flatMap doubleBackslash s.
Proof. apply ReplaceAll_byte. Qed.

(** Case analysis on a byte as the escaper sees it. *)
Ltac byte_cases c :=
  let Hb := fresh "Hb" in
  let Hq := fresh "Hq" in
  destruct (Ascii.eqb c backslash) eqn:Hb;
  [ apply Ascii.eqb_eq in Hb; subst c
  | destruct (Ascii.eqb c quote) eqn:Hq;
    [ apply Ascii.eqb_eq in Hq; subst c | ] ].

(** Undoing the quote doubling gives back the text with its backslashes
    doubled: every quote of the escaped form sits in an aligned pair. *)
Lemma undouble_quotes (s : string) :
  strings.ReplaceAll (flatMap escapeByte s) "''" "'" = flatMap doubleBackslash s.
Proof.
  unfold strings.ReplaceAll.
  induction s as [|c s IH]; [reflexivity|].
  cbn [flatMap]. unfold escapeByte at 1, doubleBackslash at 1.
  byte_cases c.
  - change (String backslash (String backslash (strings.replaceFrom "''" "'" 0 (flatMap escapeByte s)))
            = String backslash (String backslash (flatMap doubleBackslash s))).
    now rewrite IH.
  - change (String quote (strings.replaceFrom "''" "'" 0 (flatMap escapeByte s))
            = String quote (flatMap doubleBackslash s)).
    now rewrite IH.
  - rewrite !append_cons, !append_nil_l.
    cbn [strings.replaceFrom strings.HasPrefix].
    change (Ascii.eqb c "'") with (Ascii.eqb c quote). rewrite Hq.
    now rewrite IH.
Qed.

(** Undoing the backslash doubling gives back the text. *)
Lemma undouble_backslashes (s : string) :
  strings.ReplaceAll (flatMap doubleBackslash s) "\\" "\" = s.
Proof.
  unfold strings.ReplaceAll.
  induction s as [|c s IH]; [reflexivity|].
  cbn [flatMap]. unfold doubleBackslash at 1.
  destruct (Ascii.eqb c backslash) eqn:Hb.
  - apply Ascii.eqb_eq in Hb; subst c.
    change (String backslash (strings.replaceFrom "\\" "\" 0 (flatMap doubleBackslash s))
            = String backslash s).
    now rewrite IH.
  - rewrite !append_cons, !append_nil_l.
    cbn [strings.replaceFrom strings.HasPrefix].
    change (Ascii.eqb c "\") with (Ascii.eqb c backslash). rewrite Hb.
    now rewrite IH.
Qed.

Lemma unescape_escape (s : string) :
  unescapeSQLString (escapeSQLString s) = s.
Proof.
  unfold unescapeSQLString.
  now rewrite escapeSQLString_flatMap, undouble_quotes, undouble_backslashes.
Qed.

Lemma sqlLiteralBody_escape (s : string) :
  sqlLiteralBody (flatMap escapeByte s) = Some (flatMap doubleBackslash s).
Proof.
  induction s as [|c s IH]; [reflexivity|].
  cbn [flatMap]. unfold escapeByte at 1, doubleBackslash at 1.
  byte_cases c.
  - change (option_map (String backslash)
              (option_map (String backslash) (sqlLiteralBody (flatMap escapeByte s)))
            = Some (String backslash (String backslash (flatMap doubleBackslash s)))).
    now rewrite IH.
  - change (option_map (String quote) (sqlLiteralBody (flatMap escapeByte s))
            = Some (String quote (flatMap doubleBackslash s))).
    now rewrite IH.
  - rewrite !append_cons, !append_nil_l.
    cbn [sqlLiteralBody]. rewrite Hq. now rewrite IH.
Qed.

Lemma sqlLiteralBodyBackslash_escape (s : string) :
  sqlLiteralBodyBackslash (flatMap escapeByte s) = Some s.
Proof.
  induction s as [|c s IH]; [reflexivity|].
  cbn [flatMap]. unfold escapeByte at 1.
  byte_cases c.
  - change (option_map (String backslash) (sqlLiteralBodyBackslash (flatMap escapeByte s))
            = Some (String backslash s)).
    now rewrite IH.
  - change (option_map (String quote) (sqlLiteralBodyBackslash (flatMap escapeByte s))
            = Some (String quote s)).
    now rewrite IH.
  - rewrite !append_cons, !append_nil_l.
    cbn [sqlLiteralBodyBackslash]. rewrite Hb, Hq. now rewrite IH.
Qed.

End Escaping.

(** C1. [escapeSQLString] replaces every backslash by two backslashes and
    every single quote by two single quotes, the backslashes first.  The
    original value comes back when the two substitutions are reversed, so
    the escaper is injective; and the escaped form never closes a
    single-quoted SQL literal early: read with quote doubling as the only
    escape it denotes the value with its backslashes doubled, read with
    backslash escapes as well it denotes the value itself. *)
Theorem escapeSQLString_roundtrip (value : string) :
  escapeSQLString value =
    strings.ReplaceAll (strings.ReplaceAll value "\" "\\") "'" "''"
  /\ escapeSQLString value = flatMap escapeByte value
  /\ unescapeSQLString (escapeSQLString value) = value
  /\ (forall other, escapeSQLString other = escapeSQLString value -> other = value)
  /\ sqlLiteralBody (escapeSQLString value)
       = Some (strings.ReplaceAll value "\" "\\")
  /\ sqlLiteralBodyBackslash (escapeSQLString value) = Some value.
Proof.
  split; [reflexivity|].
  split; [apply escapeSQLString_flatMap|].
  split; [apply unescape_escape|].
  split.
  - intros other E.
    rewrite <- (unescape_escape other), E. apply unescape_escape.
  - rewrite ReplaceAll_backslash, escapeSQLString_flatMap.
    split; [apply sqlLiteralBody_escape | apply sqlLiteralBodyBackslash_escape].
Qed.

(** ** Facts about the query builder *)

Section QueryBuilderFacts.

Variable Marshal : any -> result string.

Import ComponentLogsParams.

Lemma wrap64_small (x : Z) : - 2 ^ 63 <= x < 2 ^ 63 -> wrap64 x = x.
Proof.
  intros H. unfold wrap64. rewrite Z.mod_small; lia.
Qed.

Lemma wrap64_add_l (a b : Z) : wrap64 (wrap64 a + b) = wrap64 (a + b).
Proof.
  unfold wrap64. f_equal.
  replace ((a + 2 ^ 63) mod 2 ^ 64 - 2 ^ 63 + b + 2 ^ 63)
    with ((a + 2 ^ 63) mod 2 ^ 64 + b) by lia.
  rewrite Zplus_mod_idemp_l. f_equal. lia.
Qed.

(** An instant whose microseconds fit [int64] converts exactly. *)
Lemma Time_UnixMicro_exact (t : time.Time) :
  - 2 ^ 63 <= time.unixSec t * 10 ^ 6 + Z.quot (time.nsec t) (10 ^ 3) < 2 ^ 63 ->
  time.Time_UnixMicro t = time.unixSec t * 10 ^ 6 + Z.quot (time.nsec t) (10 ^ 3).
Proof.
  intros H. unfold time.Time_UnixMicro.
  now rewrite wrap64_add_l, wrap64_small.
Qed.

Lemma length_pos_cons {A : Type} (l : list A) :
  (0 <? length l)%nat = match l with [] => false | _ :: _ => true end.
Proof. now destruct l. Qed.

(** The conditions, filter by filter. *)
Lemma componentLogsConditions_filters (params : ComponentLogsParams.t) :
  componentLogsConditions params =
    (projectCondition params :: environmentCondition params ::
       match ComponentIDs params with
       | [] => []
       | ids => [orGroup (map componentCondition ids)]
       end ++ searchPhraseFilter params ++ logLevelsFilter params)%list.
Proof.
  unfold componentLogsConditions, searchPhraseFilter, logLevelsFilter, orGroup.
  rewrite !length_pos_cons.
  destruct (ComponentIDs params), (String.eqb (SearchPhrase params) EmptyString),
    (LogLevels params); reflexivity.
Qed.

Lemma Join_cons (e : string) (rest : list string) (sep : string) :
  strings.Join (e :: rest) sep =
  e +:+ match rest with [] => EmptyString | _ :: _ => sep +:+ strings.Join rest sep end.
Proof. destruct rest; cbn [strings.Join]; [now rewrite append_nil_r | reflexivity]. Qed.

Lemma searchPhraseFilter_no_component (params : ComponentLogsParams.t) :
  Forall (fun condition => isComponentClause condition = false) (searchPhraseFilter params).
Proof.
  unfold searchPhraseFilter.
  destruct (String.eqb _ _); repeat constructor.
Qed.

Lemma logLevelsFilter_no_component (params : ComponentLogsParams.t) :
  Forall (fun condition => isComponentClause condition = false) (logLevelsFilter params).
Proof.
  unfold logLevelsFilter.
  destruct (LogLevels params) as [|level levels]; repeat constructor.
  unfold orGroup. cbn [map]. rewrite Join_cons. reflexivity.
Qed.

(** C4. With an empty list of component IDs the filter rendered by
    [generateComponentLogsQuery] has no clause on the component label: its
    conditions are the project and environment equalities followed by the
    search-phrase condition and the log-level group when those are asked
    for.  With a non-empty list the OR-group over the component equalities
    is the third of the conditions, which are joined by AND. *)
Theorem component_filter_optional (params : ComponentLogsParams.t) (stream : string) :
  generateComponentLogsQuery Marshal params stream
    = Marshal (AnyMap (componentLogsQuery params stream))
  /\ queryField (componentLogsQuery params stream) "sql"
       = Some (AnyString (componentLogsSQL params stream))
  /\ (exists order,
        componentLogsSQL params stream =
          "SELECT * FROM " +:+ stream +:+ " WHERE "
            +:+ strings.Join (componentLogsConditions params) " AND " +:+ order)
  /\ (ComponentIDs params = [] ->
        componentLogsConditions params =
          (projectCondition params :: environmentCondition params ::
             searchPhraseFilter params ++ logLevelsFilter params)%list
        /\ Forall (fun condition => isComponentClause condition = false)
             (componentLogsConditions params))
  /\ (ComponentIDs params <> [] ->
        componentLogsConditions params =
          (projectCondition params :: environmentCondition params ::
             orGroup (map componentCondition (ComponentIDs params)) ::
             searchPhraseFilter params ++ logLevelsFilter params)%list).
Proof.
  split; [reflexivity|]. split; [reflexivity|]. split.
  - unfold componentLogsSQL.
    destruct (_ || _); eexists; rewrite !append_assoc; reflexivity.
  - rewrite componentLogsConditions_filters. split.
    + intros ->. split; [reflexivity|].
      do 2 (constructor; [reflexivity|]).
      rewrite app_nil_l. apply Forall_app. split.
      * apply searchPhraseFilter_no_component.
      * apply logLevelsFilter_no_component.
    + intros Hne. destruct (ComponentIDs params); [congruence | reflexivity].
Qed.

(** C5, as the code has it.  [generateComponentLogsQuery] appends
    [ORDER BY _timestamp ASC] exactly when the sort order is spelled ASC or
    asc, and [ORDER BY _timestamp DESC] for every other input. *)
Theorem sort_order_whitelist (params : ComponentLogsParams.t) (stream : string) :
  generateComponentLogsQuery Marshal params stream
    = Marshal (AnyMap (componentLogsQuery params stream))
  /\ queryField (componentLogsQuery params stream) "sql"
       = Some (AnyString (componentLogsSQL params stream))
  /\ (SortOrder params = "ASC" \/ SortOrder params = "asc" ->
        componentLogsSQL params stream
          = selectWhere params stream +:+ " ORDER BY _timestamp ASC")
  /\ (SortOrder params <> "ASC" -> SortOrder params <> "asc" ->
        componentLogsSQL params stream
          = selectWhere params stream +:+ " ORDER BY _timestamp DESC").
Proof.
  split; [reflexivity|]. split; [reflexivity|].
  unfold componentLogsSQL, selectWhere. split.
  - intros [-> | ->]; reflexivity.
  - intros H1 H2.
    apply String.eqb_neq in H1, H2. now rewrite H1, H2.
Qed.

(** C6. The [size] of the query document is 100 when the requested limit
    is zero or negative and the requested limit when it is positive. *)
Theorem limit_default (params : ComponentLogsParams.t) (stream : string) :
  generateComponentLogsQuery Marshal params stream
    = Marshal (AnyMap (componentLogsQuery params stream))
  /\ queryField (componentLogsQuery params stream) "size"
       = Some (AnyInt (effectiveLimit params))
  /\ (Limit params <= 0 -> effectiveLimit params = 100)
  /\ (0 < Limit params -> effectiveLimit params = Limit params).
Proof.
  split; [reflexivity|]. split; [reflexivity|].
  unfold effectiveLimit. split; intros H.
  - apply Z.leb_le in H. now rewrite H.
  - apply Z.leb_gt in H. now rewrite H.
Qed.

(** C10. Whatever the request, the query document has [from] 0 and
    [timeout] 0, so no request reaches past the first [size] results; its
    time range is the start and end of the request in microseconds since
    the epoch, as [Time.UnixMicro] gives them: exactly the seconds times
    a million plus the microseconds of the second, when that fits 64
    bits. *)
Theorem pagination_fixed (params : ComponentLogsParams.t) (stream : string) :
  generateComponentLogsQuery Marshal params stream
    = Marshal (AnyMap (componentLogsQuery params stream))
  /\ queryField (componentLogsQuery params stream) "from" = Some (AnyInt 0)
  /\ field (componentLogsQuery params stream) "timeout" = Some (AnyInt 0)
  /\ queryField (componentLogsQuery params stream) "start_time"
       = Some (AnyInt64 (time.Time_UnixMicro (StartTime params)))
  /\ queryField (componentLogsQuery params stream) "end_time"
       = Some (AnyInt64 (time.Time_UnixMicro (EndTime params)))
  /\ (forall other stream',
        queryField (componentLogsQuery other stream') "from"
          = queryField (componentLogsQuery params stream) "from"
        /\ field (componentLogsQuery other stream') "timeout"
          = field (componentLogsQuery params stream) "timeout")
  /\ (forall t,
        - 2 ^ 63 <= time.unixSec t * 10 ^ 6 + Z.quot (time.nsec t) (10 ^ 3) < 2 ^ 63 ->
        time.Time_UnixMicro t
          = time.unixSec t * 10 ^ 6 + Z.quot (time.nsec t) (10 ^ 3)).
Proof.
  do 5 (split; [reflexivity|]).
  split; [intros other stream'; split; reflexivity|].
  apply Time_UnixMicro_exact.
Qed.

Import LogAlertParams.

(** C7. The document of [generateAlertConfig] holds the count query over
    [str_match], a condition on the count column with operator [>] and the
    threshold of the definition, the duration and the frequency of the
    definition, the realtime flag fixed to its negative value (the string
    no), the type scheduled and the one destination openchoreo_alerts,
    whatever the input. *)
Theorem alert_config_shape (params : LogAlertParams.t) (streamName : string) :
  generateAlertConfig Marshal params streamName
    = Marshal (AnyMap (alertConfig params streamName))
  /\ field (alertConfig params streamName) "query"
       = Some (AnyString ("SELECT count(*) as match_count FROM " +:+ dquote
                            +:+ streamName +:+ dquote
                            +:+ " WHERE str_match(log, '"
                            +:+ escapeSQLString (SearchPattern params) +:+ "')"))
  /\ field (alertConfig params streamName) "condition"
       = Some (AnyMap (list_to_map [
                 ("column", AnyString "match_count");
                 ("operator", AnyString ">");
                 ("value", AnyInt (ThresholdValue params)) ]))
  /\ field (alertConfig params streamName) "duration" = Some (AnyInt (Duration params))
  /\ field (alertConfig params streamName) "frequency" = Some (AnyInt (Frequency params))
  /\ field (alertConfig params streamName) "is_realtime" = Some (AnyString "no")
  /\ field (alertConfig params streamName) "alert_type" = Some (AnyString "scheduled")
  /\ field (alertConfig params streamName) "destinations"
       = Some (AnyStrings ["openchoreo_alerts"])
  /\ (forall other streamName',
        field (alertConfig other streamName') "is_realtime"
          = field (alertConfig params streamName) "is_realtime"
        /\ field (alertConfig other streamName') "destinations"
          = field (alertConfig params streamName) "destinations").
Proof.
  do 8 (split; [reflexivity|]). intros other streamName'. split; reflexivity.
Qed.

End QueryBuilderFacts.

(** ** Facts about the backend client *)

Section ScanFacts.

Import AlertListItem.

(** The scan stops at the first alert whose name is the one looked for. *)
Lemma scanAlertList_first (before after : list AlertListItem.t)
    (alert : AlertListItem.t) (name : string) :
  Name alert = name ->
  (forall a, In a before -> Name a <> name) ->
  scanAlertList (before ++ alert :: after) name = Some (AlertID alert).
Proof.
  intros Hname Hbefore.
  induction before as [|a before IH]; cbn [app scanAlertList].
  - apply String.eqb_eq in Hname. now rewrite Hname.
  - assert (Ha : Name a <> name) by (apply Hbefore; now left).
    apply String.eqb_neq in Ha. rewrite Ha.
    apply IH. intros a' Hin. apply Hbefore. now right.
Qed.

(** What the scan finds is the ID of an alert of the listing whose name
    is, byte for byte, the name looked for, and no alert before it has
    that name. *)
Lemma scanAlertList_Some (list : list AlertListItem.t) (name alertID : string) :
  scanAlertList list name = Some alertID ->
  exists before alert after,
    list = (before ++ alert :: after)%list
    /\ Name alert = name /\ AlertID alert = alertID
    /\ (forall a, In a before -> Name a <> name).
Proof.
  induction list as [|a rest IH]; cbn [scanAlertList]; [discriminate|].
  destruct (String.eqb (Name a) name) eqn:E.
  - intros [= <-]. apply String.eqb_eq in E.
    exists [], a, rest. repeat split; [assumption | intros ? []].
  - intros H. destruct (IH H) as (before & alert & after & -> & Hn & Hid & Hb).
    exists (a :: before), alert, after. repeat split; try assumption.
    intros a' [<- | Hin]; [now apply String.eqb_neq | now apply Hb].
Qed.

(** The scan finds nothing exactly when no alert has the name. *)
Lemma scanAlertList_None (list : list AlertListItem.t) (name : string) :
  scanAlertList list name = None <-> (forall a, In a list -> Name a <> name).
Proof.
  induction list as [|a rest IH]; cbn [scanAlertList].
  - split; [intros _ ? [] | reflexivity].
  - destruct (String.eqb (Name a) name) eqn:E.
    + apply String.eqb_eq in E. split; [discriminate|].
      intros H. exfalso. apply (H a); [now left | assumption].
    + apply String.eqb_neq in E. rewrite IH. split.
      * intros H a' [<- | Hin]; [assumption | now apply H].
      * intros H a' Hin. apply H. now right.
Qed.

End ScanFacts.

Section ClientFacts.

Variable Backend : Type.
Variable Do : http.Request -> Backend -> result http.Response * Backend.
Variable parseURLError : string -> option string.
Variable Quote : string -> string.
Variable UnmarshalAlertList : string -> result (list AlertListItem.t).

Local Abbreviation getAlertIDByName :=
  (getAlertIDByName Backend Do parseURLError Quote UnmarshalAlertList).
Local Abbreviation DeleteAlert :=
  (DeleteAlert Backend Do parseURLError Quote UnmarshalAlertList).
Local Abbreviation listingIs :=
  (listingIs Backend Do parseURLError UnmarshalAlertList).

(** Running a computation: its combinators are unfolded. *)
Ltac run :=
  cbv beta iota zeta delta
    [openobserve.getAlertIDByName openobserve.DeleteAlert
     openobserve.NewRequestWithContext openobserve.httpDo
     bind wrapError lift ret fail
     http.SetBasicAuth http.SetContentType
     http.Method http.URL http.Body http.ContentType http.BasicAuth].

(** With the listing at hand name resolution is the scan. *)
Lemma getAlertIDByName_listing (c : Client) (name : string) (w : World Backend)
    (b' : Backend) (alerts : list AlertListItem.t) :
  listingIs c w b' alerts ->
  getAlertIDByName c name w =
    (match scanAlertList alerts name with
     | Some alertID => Ok alertID
     | None => Err (alertNotFound Quote name)
     end, mkWorld b' (sent w ++ [listRequest c])%list).
Proof.
  intros (Hurl & resp & body & Hdo & Hstatus & Hread & Hjson).
  run. fold (alertsURL c). rewrite Hurl.
  fold (listRequest c). rewrite Hdo, Hread, Hstatus, Z.eqb_refl.
  cbn [negb]. rewrite Hjson.
  destruct (scanAlertList alerts name); reflexivity.
Qed.

(** Name resolution sends the listing request and nothing else, and any
    ID it returns, or a not-found error, comes from a listing; every
    other error names another failure. *)
Lemma getAlertIDByName_outcome (c : Client) (name : string) (w : World Backend) :
  (exists new,
     sent (snd (getAlertIDByName c name w)) = (sent w ++ new)%list
     /\ (new = [] \/ new = [listRequest c]))
  /\ (forall r,
        fst (getAlertIDByName c name w) = r ->
        (exists alertID, r = Ok alertID) \/ r = Err (alertNotFound Quote name) ->
        exists b' alerts,
          listingIs c w b' alerts
          /\ snd (getAlertIDByName c name w) = mkWorld b' (sent w ++ [listRequest c])%list
          /\ r = match scanAlertList alerts name with
                 | Some alertID => Ok alertID
                 | None => Err (alertNotFound Quote name)
                 end).
Proof.
  unfold openobserve.listingIs. run. fold (alertsURL c).
  destruct (parseURLError (alertsURL c)) as [err|] eqn:Hurl.
  { split.
    - exists []. split; [symmetry; apply app_nil_r | now left].
    - intros r <- [[alertID H] | H]; discriminate H. }
  fold (listRequest c).
  destruct (Do (listRequest c) (backend w)) as [[resp|err] b'] eqn:Hdo;
    [destruct (http.ReadAll resp) as [body|err] eqn:Hread;
     [destruct (http.StatusCode resp =? http.StatusOK) eqn:Hstatus; cbn [negb];
      [destruct (UnmarshalAlertList body) as [alerts|err] eqn:Hjson|]|]|].
  all: split; [exists [listRequest c]; split; [|now right]|].
  all: try (destruct (scanAlertList alerts name); reflexivity).
  all: try reflexivity.
  all: try (intros r <- [[alertID H] | H]; discriminate H).
  intros r <- _. exists b', alerts. apply Z.eqb_eq in Hstatus.
  split; [|split].
  - split; [reflexivity|]. exists resp, body. auto.
  - destruct (scanAlertList alerts name); reflexivity.
  - destruct (scanAlertList alerts name); reflexivity.
Qed.

Import AlertListItem.

(** C9. When several alerts of the listing have the name looked for,
    [getAlertIDByName] returns the ID of the first of them in listing
    order, whatever follows it; and an ID it returns is that of an alert
    whose name equals the name looked for byte for byte, with no alert of
    that name before it. *)
Theorem first_match_resolved (c : Client) (name : string) (w : World Backend)
    (b' : Backend) (alerts : list AlertListItem.t) :
  listingIs c w b' alerts ->
  (forall before alert after,
     alerts = (before ++ alert :: after)%list ->
     Name alert = name ->
     (forall a, In a before -> Name a <> name) ->
     getAlertIDByName c name w
       = (Ok (AlertID alert), mkWorld b' (sent w ++ [listRequest c])%list))
  /\ (forall alertID,
        fst (getAlertIDByName c name w) = Ok alertID ->
        exists before alert after,
          alerts = (before ++ alert :: after)%list
          /\ Name alert = name /\ AlertID alert = alertID
          /\ (forall a, In a before -> Name a <> name)).
Proof.
  intros Hlisting. rewrite (getAlertIDByName_listing c name w b' alerts Hlisting).
  split.
  - intros before alert after -> Hname Hbefore.
    now rewrite (scanAlertList_first before after alert name Hname Hbefore).
  - intros alertID. cbn [fst].
    destruct (scanAlertList alerts name) as [found|] eqn:Hscan; [|discriminate].
    intros [= <-]. now apply scanAlertList_Some.
Qed.

(** C2. [DeleteAlert] is two-phase.  When the listing has no alert of the
    name, [getAlertIDByName] fails with the not-found error, [DeleteAlert]
    returns that error wrapped, and the listing request is all that was
    sent.  In any run, a DELETE request is sent only after the listing was
    obtained and the scan matched an alert of exactly that name, and it is
    the deletion of that alert's ID.  The not-found error is distinct: name
    resolution ends with it only when the listing was obtained and has no
    alert of the name. *)
Theorem delete_two_phase (c : Client) (name : string) (w : World Backend) :
  (forall b' alerts,
     listingIs c w b' alerts ->
     (forall a, In a alerts -> Name a <> name) ->
     getAlertIDByName c name w
       = (Err (alertNotFound Quote name), mkWorld b' (sent w ++ [listRequest c])%list)
     /\ DeleteAlert c name w
       = (Err ("failed to find alert " +:+ Quote name +:+ ": "
                 +:+ alertNotFound Quote name),
          mkWorld b' (sent w ++ [listRequest c])%list))
  /\ (exists new,
        sent (snd (DeleteAlert c name w)) = (sent w ++ new)%list
        /\ forall req,
             In req new -> http.Method req = "DELETE" ->
             exists b' alerts alert,
               listingIs c w b' alerts
               /\ In alert alerts /\ Name alert = name
               /\ scanAlertList alerts name = Some (AlertID alert)
               /\ req = deleteRequest c (AlertID alert)
               /\ new = [listRequest c; req])
  /\ (forall msg w',
        getAlertIDByName c name w = (Err msg, w') ->
        msg = alertNotFound Quote name ->
        exists b' alerts,
          listingIs c w b' alerts /\ scanAlertList alerts name = None).
Proof.
  split; [|split].
  - intros b' alerts Hlisting Habsent.
    apply scanAlertList_None in Habsent.
    pose proof (getAlertIDByName_listing c name w b' alerts Hlisting) as Hrun.
    rewrite Habsent in Hrun. split; [exact Hrun|].
    cbv beta iota zeta delta [openobserve.DeleteAlert bind wrapError].
    rewrite Hrun. now rewrite append_assoc.
  - destruct (getAlertIDByName_outcome c name w) as [(new & Hsent & Hnew) Hfrom].
    cbv beta iota zeta delta [openobserve.DeleteAlert bind wrapError].
    destruct (getAlertIDByName c name w) as [[alertID|msg] w1] eqn:Hrun;
      cbn [fst snd] in Hsent, Hfrom |- *.
    + destruct (Hfrom (Ok alertID) eq_refl) as (b' & alerts & Hlisting & -> & Hscan);
        [left; now exists alertID|].
      destruct (scanAlertList alerts name) as [found|] eqn:Hfound; [|discriminate].
      injection Hscan as ->.
      destruct (scanAlertList_Some alerts name found Hfound)
        as (before & alert & after & Halerts & Hname & Hid & _).
      run. fold (alertURL c found).
      destruct (parseURLError (alertURL c found)) eqn:Hurl.
      * exists [listRequest c]. split; [reflexivity|].
        intros req [<- | []] Hm. discriminate Hm.
      * fold (deleteRequest c found). cbn [backend sent].
        destruct (Do (deleteRequest c found) b') as [[resp|err] b2].
        all: exists [listRequest c; deleteRequest c found].
        all: split;
          [ try destruct (http.ReadAll resp); try destruct (_ && _);
            cbn [snd sent]; now rewrite <- app_assoc |].
        all: intros req [<- | [<- | []]] Hm; [discriminate Hm|].
        all: exists b', alerts, alert; rewrite Hid.
        all: split; [exact Hlisting|]; split; [|auto].
        all: rewrite Halerts; apply in_or_app; right; now left.
    + exists new. split; [exact Hsent|].
      intros req Hin Hm. destruct Hnew as [-> | ->]; [destruct Hin|].
      destruct Hin as [<- | []]. discriminate Hm.
  - intros msg w' Hrun ->.
    destruct (getAlertIDByName_outcome c name w) as [_ Hfrom].
    rewrite Hrun in Hfrom. cbn [fst snd] in Hfrom.
    destruct (Hfrom _ eq_refl) as (b' & alerts & Hlisting & _ & Hscan); [now right|].
    exists b', alerts. split; [assumption|].
    destruct (scanAlertList alerts name); [discriminate | reflexivity].
Qed.

End ClientFacts.

(** ** Facts about the normaliser *)

Section NormalizerFacts.

Import ComponentLogsEntry.

(** A field the setter leaves alone is left alone by the assignment. *)
Lemma assignString_other {A : Type} (proj : ComponentLogsEntry.t -> A)
    (source : gmap string any) (key : string)
    (set : string -> ComponentLogsEntry.t -> ComponentLogsEntry.t)
    (entry : ComponentLogsEntry.t) :
  (forall x e, proj (set x e) = proj e) ->
  proj (assignString source key set entry) = proj entry.
Proof.
  intros Hset. unfold assignString.
  destruct (source !! key) as [[]|]; auto.
Qed.

(** The field the setter writes holds the string under the key, or what
    it held before. *)
Lemma assignString_same (proj : ComponentLogsEntry.t -> string)
    (source : gmap string any) (key : string)
    (set : string -> ComponentLogsEntry.t -> ComponentLogsEntry.t)
    (entry : ComponentLogsEntry.t) :
  (forall x e, proj (set x e) = x) ->
  proj (assignString source key set entry) =
    match source !! key with
    | Some (AnyString x) => x
    | _ => proj entry
    end.
Proof.
  intros Hset. unfold assignString.
  destruct (source !! key) as [[]|]; auto.
Qed.

(** Copying the labels leaves the other fields alone. *)
Lemma copyLabels_other {A : Type} (proj : ComponentLogsEntry.t -> A)
    (labels : gmap string any) (entry : ComponentLogsEntry.t) :
  (forall k v e, proj (setLabel k v e) = proj e) ->
  proj (map_fold (fun k v entry =>
                    match v with
                    | AnyString strVal => setLabel k strVal entry
                    | _ => entry
                    end) entry labels) = proj entry.
Proof.
  intros Hset.
  apply (map_fold_weak_ind (fun r _ => proj r = proj entry)); [reflexivity|].
  intros k v m r _ IH. destruct v; try assumption. now rewrite Hset.
Qed.

(** Copying the labels into an entry without labels gives the
    string-valued entries, whatever the order of the iteration. *)
Lemma copyLabels_omap (labels : gmap string any) (entry : ComponentLogsEntry.t) :
  Labels entry = ∅ ->
  Labels (map_fold (fun k v entry =>
                      match v with
                      | AnyString strVal => setLabel k strVal entry
                      | _ => entry
                      end) entry labels) = omap stringValue labels.
Proof.
  intros Hempty.
  apply (map_fold_weak_ind (fun r m => Labels r = omap stringValue m)).
  - now rewrite omap_empty.
  - intros k v m r Hfresh IH.
    assert (Hk : omap stringValue m !! k = None)
      by (rewrite lookup_omap, Hfresh; reflexivity).
    destruct v;
      try (rewrite omap_insert_None by reflexivity; now rewrite delete_id).
    rewrite (omap_insert_Some _ _ _ _ s) by reflexivity.
    cbn [setLabel Labels]. now rewrite IH.
Qed.

(** Pushing a projection through the assignments of
    [parseApplicationLogEntry]. *)
Ltac through proj :=
  repeat first
    [ rewrite (assignString_other proj) by (intros; reflexivity)
    | rewrite (assignString_same proj) by (intros; reflexivity) ].

Lemma parse_labels_other {A : Type} (proj : ComponentLogsEntry.t -> A)
    (source : gmap string any) (entry : ComponentLogsEntry.t) :
  (forall k v e, proj (setLabel k v e) = proj e) ->
  proj match source !! "labels" with
       | Some (AnyMap labels) =>
           map_fold (fun k v entry =>
                       match v with
                       | AnyString strVal => setLabel k strVal entry
                       | _ => entry
                       end) entry labels
       | _ => entry
       end = proj entry.
Proof.
  intros Hset. destruct (source !! "labels") as [[]|]; try reflexivity.
  now apply copyLabels_other.
Qed.

(** Every field of a parsed entry, in terms of the hit. *)
Lemma parseApplicationLogEntry_fields (timestamp : Z) (source : gmap string any) :
  let entry := parseApplicationLogEntry timestamp source in
  Timestamp entry = time.UnixMicro timestamp
  /\ Log entry = stringField source "log"
  /\ LogLevel entry = stringField source "logLevel"
  /\ ComponentID entry
       = stringField source "kubernetes_labels_openchoreo_dev_component_uid"
  /\ EnvironmentID entry
       = stringField source "kubernetes_labels_openchoreo_dev_environment_uid"
  /\ ProjectID entry
       = stringField source "kubernetes_labels_openchoreo_dev_project_uid"
  /\ Namespace entry = stringField source "kubernetes_namespace_name"
  /\ PodID entry = stringField source "kubernetes_pod_id"
  /\ ContainerName entry = stringField source "kubernetes_container_name"
  /\ Labels entry = stringLabels source.
Proof.
  cbv zeta. unfold parseApplicationLogEntry. cbv zeta.
  split; [rewrite parse_labels_other by (intros; reflexivity); now through Timestamp|].
  split; [rewrite parse_labels_other by (intros; reflexivity); now through Log|].
  split; [rewrite parse_labels_other by (intros; reflexivity); now through LogLevel|].
  split; [rewrite parse_labels_other by (intros; reflexivity); now through ComponentID|].
  split; [rewrite parse_labels_other by (intros; reflexivity); now through EnvironmentID|].
  split; [rewrite parse_labels_other by (intros; reflexivity); now through ProjectID|].
  split; [rewrite parse_labels_other by (intros; reflexivity); now through Namespace|].
  split; [rewrite parse_labels_other by (intros; reflexivity); now through PodID|].
  split; [rewrite parse_labels_other by (intros; reflexivity); now through ContainerName|].
  unfold stringLabels.
  destruct (source !! "labels") as [[]|]; try now through Labels.
  apply copyLabels_omap. now through Labels.
Qed.

End NormalizerFacts.

Section LogsFacts.

Variable Backend : Type.
Variable Do : http.Request -> Backend -> result http.Response * Backend.
Variable parseURLError : string -> option string.
Variable Marshal : any -> result string.
Variable UnmarshalSearchResponse : string -> result OpenObserveResponse.t.

Local Abbreviation executeSearchQuery :=
  (executeSearchQuery Backend Do parseURLError UnmarshalSearchResponse).
Local Abbreviation GetComponentLogs :=
  (GetComponentLogs Backend Do parseURLError Marshal UnmarshalSearchResponse).

Import ComponentLogsEntry.

(** C3. Normalising a hit is total.  Whatever the hit holds, each string
    field of the entry is the string under its key, or the empty string
    when the key is missing or holds something else; the labels are the
    string-valued entries of the nested labels object, and there are none
    when that object is missing or is not an object; the timestamp is the
    epoch when [_timestamp] is missing or is not a number.  A hit without
    any field gives the entry of empty strings, no labels and the epoch.
    Once the search has answered, [GetComponentLogs] returns one entry per
    hit and no error. *)
Theorem normalization_total (hit : gmap string any) :
  (Log (hitEntry hit) = stringField hit "log"
   /\ LogLevel (hitEntry hit) = stringField hit "logLevel"
   /\ ComponentID (hitEntry hit)
        = stringField hit "kubernetes_labels_openchoreo_dev_component_uid"
   /\ EnvironmentID (hitEntry hit)
        = stringField hit "kubernetes_labels_openchoreo_dev_environment_uid"
   /\ ProjectID (hitEntry hit)
        = stringField hit "kubernetes_labels_openchoreo_dev_project_uid"
   /\ Namespace (hitEntry hit) = stringField hit "kubernetes_namespace_name"
   /\ PodID (hitEntry hit) = stringField hit "kubernetes_pod_id"
   /\ ContainerName (hitEntry hit) = stringField hit "kubernetes_container_name")
  /\ (Labels (hitEntry hit) = stringLabels hit
      /\ forall k s,
           Labels (hitEntry hit) !! k = Some s <->
           exists labels,
             hit !! "labels" = Some (AnyMap labels)
             /\ labels !! k = Some (AnyString s))
  /\ (Timestamp (hitEntry hit) = time.UnixMicro (hitTimestamp hit)
      /\ ((forall ts, hit !! "_timestamp" <> Some (AnyFloat64 ts)) ->
          hitTimestamp hit = 0 /\ Timestamp (hitEntry hit) = time.epoch))
  /\ hitEntry ∅
       = mk time.epoch EmptyString EmptyString EmptyString EmptyString
            EmptyString EmptyString EmptyString EmptyString ∅
  /\ (forall c params w queryJSON resp w',
        generateComponentLogsQuery Marshal params (stream c) = Ok queryJSON ->
        executeSearchQuery c queryJSON w = (Ok resp, w') ->
        GetComponentLogs c params w
          = (Ok (ComponentLogsResult.mk
                   (map hitEntry (OpenObserveResponse.Hits resp))
                   (OpenObserveResponse.Total resp)
                   (OpenObserveResponse.Took resp)), w')
        /\ length (map hitEntry (OpenObserveResponse.Hits resp))
             = length (OpenObserveResponse.Hits resp)).
Proof.
  destruct (parseApplicationLogEntry_fields (hitTimestamp hit) hit)
    as (Hts & Hlog & Hlevel & Hcomp & Henv & Hproj & Hns & Hpod & Hcont & Hlabels).
  fold (hitEntry hit) in *.
  split; [repeat split; assumption|].
  split; [split; [assumption|]|].
  { intros k s. rewrite Hlabels. unfold stringLabels.
    destruct (hit !! "labels") as [v|] eqn:Hl.
    - destruct v; try (rewrite lookup_empty; split;
                       [discriminate | intros (? & [=] & _)]).
      rewrite lookup_omap_Some. split.
      + intros (x & Hx & Hk). exists m. split; [reflexivity|].
        destruct x; try discriminate. now injection Hx as ->.
      + intros (labels & [= <-] & Hk). now exists (AnyString s).
    - rewrite lookup_empty. split; [discriminate | intros (? & [=] & _)]. }
  split; [split; [assumption|]|].
  { intros Hnone. assert (H0 : hitTimestamp hit = 0).
    { unfold hitTimestamp.
      destruct (hit !! "_timestamp") as [v|]; [|reflexivity].
      destruct v; try reflexivity. now destruct (Hnone f). }
    split; [assumption|]. now rewrite Hts, H0. }
  split; [reflexivity|].
  intros c params w queryJSON resp w' Hquery Hsearch.
  split; [|apply length_map].
  cbv beta iota zeta delta [openobserve.GetComponentLogs bind wrapError lift ret].
  now rewrite Hquery, Hsearch.
Qed.

End LogsFacts.

(** ** Facts about the alert handlers *)

Section ContainsFacts.

Lemma HasPrefix_app (prefix rest : string) :
  strings.HasPrefix (prefix +:+ rest) prefix = true.
Proof.
  induction prefix as [|x prefix IH]; [reflexivity|].
  rewrite append_cons. cbn [strings.HasPrefix].
  now rewrite Ascii.eqb_refl.
Qed.

Lemma Contains_prefix (s rest : string) : strings.Contains (s +:+ rest) s = true.
Proof.
  destruct (s +:+ rest) eqn:E; cbn [strings.Contains];
    rewrite <- E, HasPrefix_app; reflexivity.
Qed.

Lemma Contains_app_r (a b s : string) :
  strings.Contains b s = true -> strings.Contains (a +:+ b) s = true.
Proof.
  intros H. induction a as [|x a IH]; [assumption|].
  rewrite append_cons. cbn [strings.Contains].
  rewrite IH. now destruct (strings.HasPrefix _ _).
Qed.

(** The query of an alert holds its search pattern, escaped, as a quoted
    literal. *)
Lemma alertQuery_contains_literal (params : LogAlertParams.t) (streamName : string) :
  strings.Contains (alertQuery params streamName)
    ("'" +:+ escapeSQLString (LogAlertParams.SearchPattern params) +:+ "'") = true.
Proof.
  unfold alertQuery.
  do 6 apply Contains_app_r.
  set (pattern := escapeSQLString (LogAlertParams.SearchPattern params)).
  change (strings.Contains
            (" WHERE str_match(log, " +:+ ("'" +:+ pattern +:+ "')"))
            ("'" +:+ pattern +:+ "'") = true).
  apply Contains_app_r.
  replace ("'" +:+ pattern +:+ "')") with (("'" +:+ pattern +:+ "'") +:+ ")").
  - apply Contains_prefix.
  - now rewrite !append_assoc.
Qed.

End ContainsFacts.

Section HandlerFacts.

Variable Backend : Type.
Variable Do : http.Request -> Backend -> result http.Response * Backend.
Variable parseURLError : string -> option string.
Variable Marshal : any -> result string.
Variable DecodeLogAlertParams : string -> result LogAlertParams.t.

Local Abbreviation HandleCreateAlert :=
  (HandleCreateAlert Backend Do parseURLError Marshal DecodeLogAlertParams).
Local Abbreviation CreateAlert := (CreateAlert Backend Do parseURLError Marshal).

Import LogAlertParams.

(** [CreateAlert] sends at most one request, the creation carrying the
    rendering of the alert document of its parameters. *)
Lemma CreateAlert_sent (c : Client) (params : LogAlertParams.t) (w : World Backend) :
  exists new,
    sent (snd (CreateAlert c params w)) = (sent w ++ new)%list
    /\ (new = []
        \/ exists alertJSON,
             Marshal (AnyMap (alertConfig params (stream c))) = Ok alertJSON
             /\ parseURLError (alertsURL c) = None
             /\ new = [createRequest c alertJSON]).
Proof.
  cbv beta iota zeta delta
    [openobserve.CreateAlert openobserve.generateAlertConfig
     openobserve.NewRequestWithContext openobserve.httpDo
     bind wrapError lift ret fail http.SetBasicAuth http.SetContentType
     http.Method http.URL http.Body http.ContentType http.BasicAuth].
  fold (alertsURL c).
  destruct (Marshal (AnyMap (alertConfig params (stream c)))) as [alertJSON|err];
    [|exists []; split; [symmetry; apply app_nil_r | now left]].
  destruct (parseURLError (alertsURL c)) eqn:Hurl;
    [exists []; split; [symmetry; apply app_nil_r | now left]|].
  fold (createRequest c alertJSON).
  exists [createRequest c alertJSON]. split; [|right; now exists alertJSON].
  destruct (Do (createRequest c alertJSON) (backend w)) as [[resp|err] b'];
    [|reflexivity].
  destruct (http.ReadAll resp); [|reflexivity].
  destruct (_ && _); reflexivity.
Qed.

(** C8. For a creation whose path carries a non-empty rule name and whose
    body decodes, the alert document has the rule name of the path as its
    [name], whatever name the body gave, and its query holds the escaped
    search pattern as a quoted literal; the only request the handler can
    send is the creation carrying the rendering of that document, and it
    sends it when the document renders and the URL is well formed. *)
Theorem create_alert_named_by_path (c : Client) (r : http.ServerRequest)
    (w : World Backend) (params : LogAlertParams.t) :
  http.PathValue r "ruleName" <> EmptyString ->
  DecodeLogAlertParams (http.RequestBody r) = Ok params ->
  let ruleName := http.PathValue r "ruleName" in
  let doc := alertConfig (setName ruleName params) (stream c) in
  field doc "name" = Some (AnyString ruleName)
  /\ field doc "query" = Some (AnyString (alertQuery params (stream c)))
  /\ strings.Contains (alertQuery params (stream c))
       ("'" +:+ escapeSQLString (SearchPattern params) +:+ "'") = true
  /\ (exists new,
        sent (snd (HandleCreateAlert c r w)) = (sent w ++ new)%list
        /\ (new = []
            \/ exists alertJSON,
                 Marshal (AnyMap doc) = Ok alertJSON
                 /\ new = [createRequest c alertJSON]))
  /\ (forall alertJSON,
        Marshal (AnyMap doc) = Ok alertJSON ->
        parseURLError (alertsURL c) = None ->
        sent (snd (HandleCreateAlert c r w))
          = (sent w ++ [createRequest c alertJSON])%list).
Proof.
  intros Hname Hbody ruleName doc.
  split; [reflexivity|]. split; [reflexivity|].
  split; [apply alertQuery_contains_literal|].
  assert (Hrun : snd (HandleCreateAlert c r w)
                 = snd (CreateAlert c (setName ruleName params) w)).
  { unfold app.HandleCreateAlert, app.handle, ruleName. cbv zeta.
    apply String.eqb_neq in Hname. rewrite Hname, Hbody.
    now destruct (CreateAlert c _ w). }
  rewrite Hrun.
  destruct (CreateAlert_sent c (setName ruleName params) w)
    as (new & Hsent & Hnew).
  split.
  - exists new. split; [assumption|].
    destruct Hnew as [-> | (alertJSON & Hjson & _ & ->)]; [now left|].
    right. now exists alertJSON.
  - intros alertJSON Hjson Hurl.
    cbv beta iota zeta delta
      [openobserve.CreateAlert openobserve.generateAlertConfig
       openobserve.NewRequestWithContext openobserve.httpDo
       bind wrapError lift ret fail http.SetBasicAuth http.SetContentType
       http.Method http.URL http.Body http.ContentType http.BasicAuth].
    fold (alertsURL c). fold doc. rewrite Hjson, Hurl.
    fold (createRequest c alertJSON).
    destruct (Do (createRequest c alertJSON) (backend w)) as [[resp|err] b'];
      [|reflexivity].
    destruct (http.ReadAll resp); [|reflexivity].
    destruct (_ && _); reflexivity.
Qed.

End HandlerFacts.

(** * Further properties *)

(** ** The exchanges of the client *)

Section ExchangeFacts.

Variable Backend : Type.
Variable Do : http.Request -> Backend -> result http.Response * Backend.
Variable parseURLError : string -> option string.
Variable Quote : string -> string.
Variable Marshal : any -> result string.
Variable UnmarshalAlertList : string -> result (list AlertListItem.t).
Variable UnmarshalSearchResponse : string -> result OpenObserveResponse.t.

Local Abbreviation executeSearchQuery :=
  (executeSearchQuery Backend Do parseURLError UnmarshalSearchResponse).
Local Abbreviation GetComponentLogs :=
  (GetComponentLogs Backend Do parseURLError Marshal UnmarshalSearchResponse).
Local Abbreviation CreateAlert := (CreateAlert Backend Do parseURLError Marshal).
Local Abbreviation getAlertIDByName :=
  (getAlertIDByName Backend Do parseURLError Quote UnmarshalAlertList).
Local Abbreviation DeleteAlert :=
  (DeleteAlert Backend Do parseURLError Quote UnmarshalAlertList).
Local Abbreviation listingIs :=
  (listingIs Backend Do parseURLError UnmarshalAlertList).

(** Running a computation of the client: its combinators are unfolded. *)
Ltac exchange :=
  cbv beta iota zeta delta
    [openobserve.executeSearchQuery openobserve.GetComponentLogs
     openobserve.CreateAlert openobserve.DeleteAlert
     openobserve.generateAlertConfig openobserve.generateComponentLogsQuery
     openobserve.NewRequestWithContext openobserve.httpDo
     bind wrapError lift ret fail
     http.SetBasicAuth http.SetContentType
     http.Method http.URL http.Body http.ContentType http.BasicAuth];
  cbn [backend sent].

(** [executeSearchQuery], step by step. *)
Lemma executeSearchQuery_run (c : Client) (queryJSON : string) (w : World Backend) :
  executeSearchQuery c queryJSON w =
    match parseURLError (searchURL c) with
    | Some err => (Err ("failed to create request: " +:+ err), w)
    | None =>
        let '(r, b') := Do (searchRequest c queryJSON) (backend w) in
        (match r with
         | Err err => Err ("failed to execute request: " +:+ err)
         | Ok resp =>
             answered (fun status => status =? http.StatusOK) resp
               (fun body =>
                  match UnmarshalSearchResponse body with
                  | Ok openObserveResp => Ok openObserveResp
                  | Err err => Err ("failed to unmarshal response: " +:+ err)
                  end)
         end, mkWorld b' (sent w ++ [searchRequest c queryJSON])%list)
    end.
Proof.
  exchange. fold (searchURL c).
  destruct (parseURLError (searchURL c)); [reflexivity|].
  fold (searchRequest c queryJSON).
  destruct (Do (searchRequest c queryJSON) (backend w)) as [[resp|err] b'];
    [|reflexivity].
  unfold answered, statusError.
  destruct (http.ReadAll resp) as [body|err]; [|reflexivity].
  destruct (http.StatusCode resp =? http.StatusOK); cbn [negb]; [|reflexivity].
  destruct (UnmarshalSearchResponse body); reflexivity.
Qed.

(** [CreateAlert], step by step. *)
Lemma CreateAlert_run (c : Client) (params : LogAlertParams.t) (w : World Backend) :
  CreateAlert c params w =
    match Marshal (AnyMap (alertConfig params (stream c))) with
    | Err err => (Err ("failed to generate alert config: " +:+ err), w)
    | Ok alertJSON =>
        match parseURLError (alertsURL c) with
        | Some err => (Err ("failed to create request: " +:+ err), w)
        | None =>
            let '(r, b') := Do (createRequest c alertJSON) (backend w) in
            (match r with
             | Err err => Err ("failed to execute request: " +:+ err)
             | Ok resp =>
                 answered (fun status =>
                             (status =? http.StatusOK) || (status =? http.StatusCreated))
                   resp (fun _ => Ok tt)
             end, mkWorld b' (sent w ++ [createRequest c alertJSON])%list)
        end
    end.
Proof.
  exchange. fold (alertsURL c).
  destruct (Marshal (AnyMap (alertConfig params (stream c)))) as [alertJSON|err];
    [|reflexivity].
  destruct (parseURLError (alertsURL c)); [reflexivity|].
  fold (createRequest c alertJSON).
  destruct (Do (createRequest c alertJSON) (backend w)) as [[resp|err] b'];
    [|reflexivity].
  unfold answered, statusError.
  destruct (http.ReadAll resp) as [body|err]; [|reflexivity].
  destruct (http.StatusCode resp =? http.StatusOK),
    (http.StatusCode resp =? http.StatusCreated); reflexivity.
Qed.

(** [DeleteAlert] after the name is resolved, step by step. *)
Lemma DeleteAlert_run (c : Client) (alertName : string) (w : World Backend) :
  DeleteAlert c alertName w =
    match getAlertIDByName c alertName w with
    | (Err err, w1) =>
        (Err (("failed to find alert " +:+ Quote alertName) +:+ ": " +:+ err), w1)
    | (Ok alertID, w1) =>
        match parseURLError (alertURL c alertID) with
        | Some err => (Err ("failed to create request: " +:+ err), w1)
        | None =>
            let '(r, b') := Do (deleteRequest c alertID) (backend w1) in
            (match r with
             | Err err => Err ("failed to execute request: " +:+ err)
             | Ok resp =>
                 answered (fun status =>
                             (status =? http.StatusOK) || (status =? http.StatusNoContent))
                   resp (fun _ => Ok tt)
             end, mkWorld b' (sent w1 ++ [deleteRequest c alertID])%list)
        end
    end.
Proof.
  cbv beta iota zeta delta
    [openobserve.DeleteAlert openobserve.NewRequestWithContext openobserve.httpDo
     bind wrapError lift ret fail http.SetBasicAuth
     http.Method http.URL http.Body http.ContentType http.BasicAuth].
  destruct (getAlertIDByName c alertName w) as [[alertID|err] w1]; [|reflexivity].
  fold (alertURL c alertID).
  destruct (parseURLError (alertURL c alertID)); [reflexivity|].
  fold (deleteRequest c alertID).
  destruct (Do (deleteRequest c alertID) (backend w1)) as [[resp|err] b'];
    [|reflexivity].
  unfold answered, statusError.
  destruct (http.ReadAll resp) as [body|err]; [|reflexivity].
  destruct (http.StatusCode resp =? http.StatusOK),
    (http.StatusCode resp =? http.StatusNoContent); reflexivity.
Qed.

Lemma answered_Ok {A : Type} (accepted : Z -> bool) (resp : http.Response)
    (k : string -> result A) (a : A) :
  answered accepted resp k = Ok a ->
  exists body,
    http.ReadAll resp = Ok body
    /\ accepted (http.StatusCode resp) = true /\ k body = Ok a.
Proof.
  unfold answered. destruct (http.ReadAll resp) as [body|]; [|discriminate].
  destruct (accepted (http.StatusCode resp)); [|discriminate].
  intros H. now exists body.
Qed.

(** A deletion that succeeds resolved the name and sent the DELETE of the
    ID after the listing request. *)
Lemma DeleteAlert_Ok (c : Client) (alertName : string) (w w' : World Backend)
    (u : unit) :
  DeleteAlert c alertName w = (Ok u, w') ->
  exists alertID,
    fst (getAlertIDByName c alertName w) = Ok alertID
    /\ sent w' = (sent w ++ [listRequest c; deleteRequest c alertID])%list.
Proof.
  rewrite DeleteAlert_run.
  destruct (getAlertIDByName_outcome Backend Do parseURLError Quote
              UnmarshalAlertList c alertName w) as [_ Hfrom].
  destruct (getAlertIDByName c alertName w) as [[alertID|err] w1];
    [|discriminate].
  cbn [fst snd] in Hfrom.
  destruct (Hfrom (Ok alertID) eq_refl) as (b1 & alerts & _ & -> & _);
    [left; now exists alertID|].
  destruct (parseURLError (alertURL c alertID)); [discriminate|].
  cbn [backend sent].
  destruct (Do (deleteRequest c alertID) b1) as [[resp|] b2]; [|discriminate].
  intros [= _ <-]. exists alertID. split; [reflexivity|].
  cbn [sent]. now rewrite <- app_assoc.
Qed.






End ExchangeFacts.

(** ** The replies of the handlers *)

Section ReplyFacts.

Variable Backend : Type.
Variable Do : http.Request -> Backend -> result http.Response * Backend.
Variable parseURLError : string -> option string.
Variable Quote : string -> string.
Variable Marshal : any -> result string.
Variable DecodeLogAlertParams : string -> result LogAlertParams.t.
Variable UnmarshalAlertList : string -> result (list AlertListItem.t).
Variable UnmarshalSearchResponse : string -> result OpenObserveResponse.t.
Variable UnmarshalType : string -> result string.
Variable UnmarshalComponentLogsParams : string -> result ComponentLogsParams.t.
Variable MarshalResult : ComponentLogsResult.t -> result string.

Local Abbreviation GetComponentLogs :=
  (GetComponentLogs Backend Do parseURLError Marshal UnmarshalSearchResponse).
Local Abbreviation CreateAlert := (CreateAlert Backend Do parseURLError Marshal).
Local Abbreviation getAlertIDByName :=
  (getAlertIDByName Backend Do parseURLError Quote UnmarshalAlertList).
Local Abbreviation DeleteAlert :=
  (DeleteAlert Backend Do parseURLError Quote UnmarshalAlertList).
Local Abbreviation listingIs :=
  (listingIs Backend Do parseURLError UnmarshalAlertList).
Local Abbreviation HandleCreateAlert :=
  (HandleCreateAlert Backend Do parseURLError Marshal DecodeLogAlertParams).
Local Abbreviation HandleDeleteAlert :=
  (HandleDeleteAlert Backend Do parseURLError Marshal Quote UnmarshalAlertList).
Local Abbreviation HandleLogsQuery :=
  (HandleLogsQuery Backend Do parseURLError Marshal UnmarshalSearchResponse
     UnmarshalType UnmarshalComponentLogsParams MarshalResult).

(** X6. [HandleCreateAlert] replies 400, 500 or 201.  A 400 means the
    rule name was empty or the body did not decode, and nothing was sent
    to the backend.  A 500 is always the same plain reply, whatever went
    wrong.  A 201 means the creation of the document named by the path
    went out and the backend answered 200 or 201. *)
Theorem create_handler_replies (c : Client) (r : http.ServerRequest)
    (w : World Backend) :
  let out := fst (HandleCreateAlert c r w) in
  let w' := snd (HandleCreateAlert c r w) in
  (http.Code out = 400 \/ http.Code out = 500 \/ http.Code out = 201)
  /\ (http.Code out = 400 ->
        w' = w
        /\ (http.PathValue r "ruleName" = EmptyString
            \/ exists err, DecodeLogAlertParams (http.RequestBody r) = Err err))
  /\ (http.PathValue r "ruleName" = EmptyString ->
        out = http.Error "Rule name is required" 400)
  /\ (http.Code out = 500 -> out = http.Error "Failed to create alert" 500)
  /\ (http.Code out = 201 ->
        exists params alertJSON resp,
          DecodeLogAlertParams (http.RequestBody r) = Ok params
          /\ Marshal (AnyMap (alertConfig
                                (LogAlertParams.setName (http.PathValue r "ruleName") params)
                                (stream c))) = Ok alertJSON
          /\ Do (createRequest c alertJSON) (backend w) = (Ok resp, backend w')
          /\ (http.StatusCode resp = 200 \/ http.StatusCode resp = 201)
          /\ sent w' = (sent w ++ [createRequest c alertJSON])%list).
Proof.
  cbv zeta. unfold app.HandleCreateAlert, app.handle.
  destruct (String.eqb (http.PathValue r "ruleName") EmptyString) eqn:Hname.
  { apply String.eqb_eq in Hname. cbn [fst snd].
    repeat split; try discriminate; auto. }
  apply String.eqb_neq in Hname.
  destruct (DecodeLogAlertParams (http.RequestBody r)) as [params|err].
  2:{ cbn [fst snd]. repeat split; try discriminate; try contradiction; eauto. }
  rewrite (CreateAlert_run Backend Do parseURLError Marshal).
  set (ruleName := http.PathValue r "ruleName") in *.
  destruct (Marshal (AnyMap (alertConfig (LogAlertParams.setName ruleName params)
                               (stream c)))) as [alertJSON|] eqn:Hjson.
  2:{ cbn [fst snd]. repeat split; try discriminate; try contradiction; auto. }
  destruct (parseURLError (alertsURL c)).
  { cbn [fst snd]. repeat split; try discriminate; try contradiction; auto. }
  destruct (Do (createRequest c alertJSON) (backend w)) as [[resp|] b'] eqn:Hdo.
  2:{ cbn [fst snd]. repeat split; try discriminate; try contradiction; auto. }
  unfold answered.
  destruct (http.ReadAll resp) as [body|].
  2:{ cbn [fst snd]. repeat split; try discriminate; try contradiction; auto. }
  destruct ((http.StatusCode resp =? http.StatusOK)
            || (http.StatusCode resp =? http.StatusCreated)) eqn:Hstatus.
  2:{ cbn [fst snd]. repeat split; try discriminate; try contradiction; auto. }
  cbn [fst snd]. split; [auto|]. repeat split; try discriminate; try contradiction.
  intros _. exists params, alertJSON, resp.
  split; [reflexivity|]. split; [exact Hjson|]. split; [exact Hdo|].
  split; [|reflexivity].
  apply orb_true_iff in Hstatus as [H | H]; apply Z.eqb_eq in H; auto.
Qed.

(** X7. [HandleDeleteAlert] replies 400, 500 or 200.  A 400 means the
    rule name was empty, and nothing was sent.  A 500 is always the same
    plain reply: a name that the listing does not hold gets it like any
    other failure, after the listing request alone.  A 200 means the name
    was resolved and the DELETE of its ID went out after the listing
    request. *)
Theorem delete_handler_replies (c : Client) (r : http.ServerRequest)
    (w : World Backend) :
  let out := fst (HandleDeleteAlert c r w) in
  let w' := snd (HandleDeleteAlert c r w) in
  (http.Code out = 400 \/ http.Code out = 500 \/ http.Code out = 200)
  /\ (http.Code out = 400 -> w' = w /\ http.PathValue r "ruleName" = EmptyString)
  /\ (http.PathValue r "ruleName" = EmptyString ->
        out = http.Error "Rule name is required" 400)
  /\ (http.Code out = 500 -> out = http.Error "Failed to delete alert" 500)
  /\ (forall b' alerts,
        http.PathValue r "ruleName" <> EmptyString ->
        listingIs c w b' alerts ->
        (forall a, In a alerts -> AlertListItem.Name a <> http.PathValue r "ruleName") ->
        out = http.Error "Failed to delete alert" 500
        /\ w' = mkWorld b' (sent w ++ [listRequest c])%list)
  /\ (http.Code out = 200 ->
        exists alertID,
          fst (getAlertIDByName c (http.PathValue r "ruleName") w) = Ok alertID
          /\ sent w' = (sent w ++ [listRequest c; deleteRequest c alertID])%list).
Proof.
  cbv zeta. unfold app.HandleDeleteAlert, app.handle.
  destruct (String.eqb (http.PathValue r "ruleName") EmptyString) eqn:Hname.
  { apply String.eqb_eq in Hname. cbn [fst snd].
    repeat split; try discriminate; try contradiction; auto. }
  apply String.eqb_neq in Hname.
  set (ruleName := http.PathValue r "ruleName") in *.
  assert (Habsent : forall b' alerts,
            ruleName <> EmptyString ->
            listingIs c w b' alerts ->
            (forall a, In a alerts -> AlertListItem.Name a <> ruleName) ->
            DeleteAlert c ruleName w
              = (Err (("failed to find alert " +:+ Quote ruleName) +:+ ": "
                        +:+ alertNotFound Quote ruleName),
                 mkWorld b' (sent w ++ [listRequest c])%list)).
  { intros b' alerts _ Hlisting Hnone.
    apply scanAlertList_None in Hnone.
    rewrite (DeleteAlert_run Backend Do parseURLError Quote UnmarshalAlertList).
    rewrite (getAlertIDByName_listing Backend Do parseURLError Quote
               UnmarshalAlertList c ruleName w b' alerts Hlisting).
    now rewrite Hnone. }
  destruct (DeleteAlert c ruleName w) as [[u|err] w1] eqn:Hrun; cbn [fst snd].
  - split; [auto|]. split; [discriminate|]. split; [contradiction|].
    split; [discriminate|]. split.
    + intros b' alerts Hne Hlisting Hnone.
      discriminate (Habsent b' alerts Hne Hlisting Hnone).
    + intros _.
      apply (DeleteAlert_Ok Backend Do parseURLError Quote UnmarshalAlertList
               c ruleName w w1 u Hrun).
  - split; [auto|]. split; [discriminate|]. split; [contradiction|].
    split; [reflexivity|]. split; [|discriminate].
    intros b' alerts Hne Hlisting Hnone.
    injection (Habsent b' alerts Hne Hlisting Hnone) as _ ->. now split.
Qed.

(** X8. [HandleLogsQuery] replies 400, 500 or 200.  A 400 means nothing
    was sent to the backend; a query whose type is not the string
    component gets a 400 whose message names the type and component as
    the supported one.  A 500 is one of two fixed plain replies.  A 200
    means the body decoded as a component query, the client returned a
    result and the reply is its rendering followed by a newline, with the
    JSON content type. *)
Theorem logs_handler_replies (c : Client) (readAll : result string)
    (w : World Backend) :
  let out := fst (HandleLogsQuery c readAll w) in
  let w' := snd (HandleLogsQuery c readAll w) in
  (http.Code out = 400 \/ http.Code out = 500 \/ http.Code out = 200)
  /\ (http.Code out = 400 -> w' = w)
  /\ (forall body type,
        readAll = Ok body ->
        UnmarshalType body = Ok type ->
        type <> "component" ->
        out = http.Error (unknownType type) 400
        /\ w' = w
        /\ strings.Contains (unknownType type)
             (dquote +:+ "component" +:+ dquote) = true)
  /\ (http.Code out = 500 ->
        out = http.Error "Failed to fetch component logs" 500
        \/ out = http.Error "Failed to encode response" 500)
  /\ (http.Code out = 200 ->
        exists body params result b,
          readAll = Ok body
          /\ UnmarshalType body = Ok "component"
          /\ UnmarshalComponentLogsParams body = Ok params
          /\ fst (GetComponentLogs c params w) = Ok result
          /\ MarshalResult result = Ok b
          /\ out = http.mkWritten 200 "application/json"
                     (b +:+ String "010"%char EmptyString)).
Proof.
  cbv zeta. unfold app.HandleLogsQuery, app.handle.
  assert (Hnames : forall type,
            strings.Contains (unknownType type)
              (dquote +:+ "component" +:+ dquote) = true).
  { intros type. unfold unknownType. do 3 apply Contains_app_r.
    rewrite <- (append_nil_r (dquote +:+ "component" +:+ dquote)) at 1.
    apply Contains_prefix. }
  destruct readAll as [body|err]; cbn [fst snd].
  2:{ split; [auto|]. split; [reflexivity|]. split; [discriminate|].
      split; discriminate. }
  destruct (UnmarshalType body) as [type|err] eqn:Htype; cbn [fst snd].
  2:{ split; [auto|]. split; [reflexivity|]. split.
      - intros body' type' [= <-] Htype'. rewrite Htype in Htype'.
        discriminate Htype'.
      - split; discriminate. }
  destruct (String.eqb type "component") eqn:Hcomponent.
  2:{ cbn [fst snd]. split; [auto|]. split; [reflexivity|]. split.
      - intros body' type' [= <-] Htype'. rewrite Htype in Htype'.
        injection Htype' as <-. auto.
      - split; discriminate. }
  apply String.eqb_eq in Hcomponent. subst type.
  destruct (UnmarshalComponentLogsParams body) as [params|err] eqn:Hparams;
    cbn [fst snd].
  2:{ split; [auto|]. split; [reflexivity|]. split.
      - intros body' type' [= <-] Htype'. rewrite Htype in Htype'.
        injection Htype' as <-. contradiction.
      - split; discriminate. }
  destruct (GetComponentLogs c params w) as [[result|err] w1] eqn:Hrun;
    cbn [fst snd].
  2:{ split; [auto|]. split; [discriminate|]. split.
      - intros body' type' [= <-] Htype'. rewrite Htype in Htype'.
        injection Htype' as <-. contradiction.
      - split; [auto | discriminate]. }
  destruct (MarshalResult result) as [b|err] eqn:Hresult; cbn [fst snd].
  2:{ split; [auto|]. split; [discriminate|]. split.
      - intros body' type' [= <-] Htype'. rewrite Htype in Htype'.
        injection Htype' as <-. contradiction.
      - split; [auto | discriminate]. }
  split; [auto|]. split; [discriminate|]. split.
  - intros body' type' [= <-] Htype'. rewrite Htype in Htype'.
    injection Htype' as <-. contradiction.
  - split; [discriminate|]. intros _.
    exists body, params, result, b. rewrite Hrun. auto 10.
Qed.

End ReplyFacts.

(** ** More on the escaper and the filter *)

Section EscaperAlgebra.

Lemma length_append (a b : string) :
  String.length (a +:+ b) = (String.length a + String.length b)%nat.
Proof.
  induction a as [|x a IH]; [reflexivity|].
  rewrite append_cons. cbn [String.length]. now rewrite IH.
Qed.

Lemma escapeByte_length (c : ascii) :
  String.length (escapeByte c)
    = (1 + if Ascii.eqb c backslash || Ascii.eqb c quote then 1 else 0)%nat.
Proof.
  unfold escapeByte.
  destruct (Ascii.eqb c backslash); [reflexivity|].
  destruct (Ascii.eqb c quote); reflexivity.
Qed.

Lemma escape_length (s : string) :
  String.length (escapeSQLString s) = (String.length s + escapedBytes s)%nat.
Proof.
  rewrite escapeSQLString_flatMap.
  induction s as [|c s IH]; [reflexivity|].
  cbn [flatMap escapedBytes String.length].
  rewrite length_append, escapeByte_length, IH. lia.
Qed.

(** X9. [escapeSQLString] works byte by byte: the escaped form of a
    concatenation is the concatenation of the escaped forms.  It is one
    byte longer for every backslash and quote of the value, and it leaves
    the value as it is exactly when the value has neither. *)
Theorem escape_bytewise (a b : string) :
  escapeSQLString (a +:+ b) = escapeSQLString a +:+ escapeSQLString b
  /\ String.length (escapeSQLString a) = (String.length a + escapedBytes a)%nat
  /\ (escapeSQLString a = a <-> escapedBytes a = 0%nat).
Proof.
  split; [|split].
  - rewrite !escapeSQLString_flatMap. apply flatMap_app.
  - apply escape_length.
  - split.
    + intros H. pose proof (escape_length a) as Hlen. rewrite H in Hlen. lia.
    + rewrite escapeSQLString_flatMap.
      induction a as [|c a IH]; [reflexivity|].
      cbn [escapedBytes flatMap]. unfold escapeByte.
      destruct (Ascii.eqb c backslash); [discriminate|].
      destruct (Ascii.eqb c quote); [discriminate|].
      cbn [orb Nat.add]. intros H. rewrite append_cons, append_nil_l.
      f_equal. now apply IH.
Qed.

Lemma endsInLiteral_app (inside : bool) (a b : string) :
  endsInLiteral inside (a +:+ b) = endsInLiteral (endsInLiteral inside a) b.
Proof.
  revert inside. induction a as [|x a IH]; intros inside; [reflexivity|].
  rewrite append_cons. cbn [endsInLiteral]. apply IH.
Qed.

Lemma balanced_app (a b : string) : balanced a -> balanced b -> balanced (a +:+ b).
Proof. intros Ha Hb inside. now rewrite endsInLiteral_app, Ha, Hb. Qed.

Lemma balanced_escape (value : string) : balanced (escapeSQLString value).
Proof.
  rewrite escapeSQLString_flatMap.
  induction value as [|c value IH]; intros inside; [reflexivity|].
  cbn [flatMap]. rewrite endsInLiteral_app, IH.
  unfold escapeByte.
  destruct (Ascii.eqb c backslash) eqn:Hb; [reflexivity|].
  destruct (Ascii.eqb c quote) eqn:Hq.
  - cbn. now destruct inside.
  - cbn [endsInLiteral]. now rewrite Hq.
Qed.

(** A value between the quotes the builder writes is balanced. *)
Lemma balanced_quoted (before value after : string) :
  endsInLiteral false before = true ->
  endsInLiteral true before = false ->
  endsInLiteral false after = true ->
  endsInLiteral true after = false ->
  balanced (before +:+ escapeSQLString value +:+ after).
Proof.
  intros Hb0 Hb1 Ha0 Ha1 inside.
  rewrite !endsInLiteral_app, balanced_escape.
  destruct inside; now rewrite ?Hb0, ?Hb1, ?Ha0, ?Ha1.
Qed.

Lemma balanced_Join (elems : list string) (sep : string) :
  Forall balanced elems -> balanced sep -> balanced (strings.Join elems sep).
Proof.
  intros Helems Hsep. induction Helems as [|e rest He Hrest IH].
  - intros inside. reflexivity.
  - rewrite Join_cons. destruct rest as [|e' rest'].
    + now rewrite append_nil_r.
    + apply balanced_app; [assumption|]. now apply balanced_app.
Qed.

Lemma balanced_orGroup (equalities : list string) :
  Forall balanced equalities -> balanced (orGroup equalities).
Proof.
  intros H. unfold orGroup.
  apply balanced_app; [intros []; reflexivity|].
  apply balanced_app; [|intros []; reflexivity].
  apply balanced_Join; [assumption | intros []; reflexivity].
Qed.

Lemma balanced_conditions (params : ComponentLogsParams.t) :
  Forall balanced (componentLogsConditions params).
Proof.
  rewrite componentLogsConditions_filters.
  assert (Hmap : forall (f : string -> string) (l : list string),
            (forall x, balanced (f x)) -> Forall balanced (map f l)).
  { intros f l Hf. induction l; constructor; auto. }
  constructor; [now apply balanced_quoted|].
  constructor; [now apply balanced_quoted|].
  apply Forall_app. split; [|apply Forall_app; split].
  - destruct (ComponentLogsParams.ComponentIDs params) as [|id ids];
      constructor; [|constructor].
    apply balanced_orGroup, Hmap. intros x. now apply balanced_quoted.
  - unfold searchPhraseFilter. destruct (String.eqb _ _); constructor; [|constructor].
    now apply balanced_quoted.
  - unfold logLevelsFilter.
    destruct (ComponentLogsParams.LogLevels params) as [|level levels];
      constructor; [|constructor].
    apply balanced_orGroup, Hmap. intros x. now apply balanced_quoted.
Qed.

(** X10. No value of a request can unbalance the quotes of the filter:
    whatever the project, environment and component IDs, the search
    phrase and the levels hold, a lexer that reads the conditions of
    [generateComponentLogsQuery] joined by AND ends where it started,
    inside a literal or outside; the whole SQL text leaves it where the
    stream name alone, which is not escaped, leaves it, and the query of
    an alert likewise. *)
Theorem filter_quotes_balanced (params : ComponentLogsParams.t) (stream : string)
    (inside : bool) :
  endsInLiteral inside (strings.Join (componentLogsConditions params) " AND ")
    = inside
  /\ endsInLiteral inside (componentLogsSQL params stream)
     = endsInLiteral inside stream
  /\ (forall alert streamName,
        endsInLiteral inside (alertQuery alert streamName)
          = endsInLiteral inside streamName).
Proof.
  assert (Hjoin : balanced (strings.Join (componentLogsConditions params) " AND ")).
  { apply balanced_Join; [apply balanced_conditions | intros []; reflexivity]. }
  split; [apply Hjoin|]. split.
  - unfold componentLogsSQL.
    destruct (_ || _); rewrite !endsInLiteral_app, Hjoin;
      now destruct (endsInLiteral _ stream), inside.
  - intros alert streamName. unfold alertQuery.
    rewrite !endsInLiteral_app, balanced_escape.
    now destruct inside; destruct (endsInLiteral _ streamName).
Qed.

End EscaperAlgebra.

(** ** More on the normaliser *)

Section TimestampFacts.

Import ComponentLogsEntry.

Lemma quot_small_abs (a b : Z) : - b < a < b -> Z.quot a b = 0.
Proof.
  intros H. destruct (Z.le_gt_cases 0 a) as [Hpos | Hneg].
  - apply Z.quot_small. lia.
  - rewrite <- (Z.opp_involutive a), Z.quot_opp_l by lia.
    rewrite Z.quot_small by lia. reflexivity.
Qed.

(** An instant made of a microsecond count converts back to the count,
    and its nanoseconds are within the second. *)
Lemma UnixMicro_roundtrip (usec : Z) :
  - 2 ^ 63 <= usec < 2 ^ 63 ->
  time.Time_UnixMicro (time.UnixMicro usec) = usec
  /\ 0 <= time.nsec (time.UnixMicro usec) < 10 ^ 9.
Proof.
  intros Hrange.
  pose proof (Z.quot_rem' usec (10 ^ 6)) as Hqr.
  set (q := Z.quot usec (10 ^ 6)) in *. set (r := Z.rem usec (10 ^ 6)) in *.
  assert (Hr : - 10 ^ 6 < r < 10 ^ 6).
  { subst r. pose proof (Z.rem_bound_abs usec (10 ^ 6)). lia. }
  assert (Hsign : 0 <= usec -> 0 <= r)
    by (intros; subst r; apply Z.rem_nonneg; lia).
  assert (Hsign' : usec < 0 -> r <= 0)
    by (intros; subst r; apply Z.rem_nonpos; lia).
  assert (Hq : - 2 ^ 62 < q < 2 ^ 62) by lia.
  unfold time.UnixMicro, time.Unix. fold q r.
  destruct (Z.ltb_spec (r * 10 ^ 3) 0) as [Hneg | Hnonneg].
  - cbn [orb].
    rewrite (quot_small_abs (r * 10 ^ 3) (10 ^ 9)) by lia.
    rewrite Z.add_0_r, Z.mul_0_l, Z.sub_0_r.
    destruct (Z.ltb_spec (r * 10 ^ 3) 0) as [_ | ?]; [|lia].
    unfold time.Time_UnixMicro. cbn [time.unixSec time.nsec].
    rewrite (wrap64_small q) by lia.
    rewrite (wrap64_small (q - 1)) by lia.
    replace (r * 10 ^ 3 + 10 ^ 9) with ((r + 10 ^ 6) * 10 ^ 3) by lia.
    rewrite Z.quot_mul by lia.
    rewrite wrap64_add_l, wrap64_small by lia.
    split; lia.
  - destruct (Z.geb_spec (r * 10 ^ 3) (10 ^ 9)) as [? | Hlt]; [lia|].
    cbn [orb]. unfold time.Time_UnixMicro. cbn [time.unixSec time.nsec].
    rewrite Z.quot_mul by lia.
    rewrite wrap64_add_l, wrap64_small by lia.
    split; lia.
Qed.

(** X11. The timestamp of a parsed entry converts back, as the query
    builder converts the bounds of a request, to the microsecond count it
    was parsed from, for every count of 64 bits, negative ones included;
    its nanoseconds are those of a well-formed instant. *)
Theorem entry_timestamp_roundtrip (timestamp : Z) (source : gmap string any) :
  - 2 ^ 63 <= timestamp < 2 ^ 63 ->
  time.Time_UnixMicro (Timestamp (parseApplicationLogEntry timestamp source))
    = timestamp
  /\ 0 <= time.nsec (Timestamp (parseApplicationLogEntry timestamp source)) < 10 ^ 9.
Proof.
  intros Hrange.
  destruct (parseApplicationLogEntry_fields timestamp source) as [-> _].
  now apply UnixMicro_roundtrip.
Qed.

(** An assignment reads its source at its key only. *)
Lemma assignString_lookup (source source' : gmap string any) (key : string)
    (set : string -> ComponentLogsEntry.t -> ComponentLogsEntry.t)
    (entry : ComponentLogsEntry.t) :
  source !! key = source' !! key ->
  assignString source key set entry = assignString source' key set entry.
Proof. unfold assignString. now intros ->. Qed.

(** X12. The entry of a hit depends on the ten keys the normaliser reads
    and on nothing else: two hits that agree on them give the same
    entry, whatever other keys they hold. *)
Theorem entry_reads_known_keys (hit hit' : gmap string any) :
  (forall key, In key hitKeys -> hit !! key = hit' !! key) ->
  hitEntry hit = hitEntry hit'.
Proof.
  intros Hkeys.
  assert (Hkey : forall key, In key hitKeys ->
            forall set entry,
              assignString hit key set entry = assignString hit' key set entry).
  { intros key Hin set entry. now apply assignString_lookup, Hkeys. }
  unfold hitEntry, hitTimestamp.
  rewrite (Hkeys "_timestamp") by (cbn; auto 12).
  generalize (match hit' !! "_timestamp" with
              | Some (AnyFloat64 ts) => int64_of_float64 ts
              | _ => 0
              end).
  intros timestamp. unfold parseApplicationLogEntry. cbv zeta.
  rewrite (Hkeys "labels") by (cbn; auto 12).
  rewrite !(Hkey "log") by (cbn; auto 12).
  rewrite !(Hkey "logLevel") by (cbn; auto 12).
  rewrite !(Hkey "kubernetes_labels_openchoreo_dev_component_uid") by (cbn; auto 12).
  rewrite !(Hkey "kubernetes_labels_openchoreo_dev_environment_uid") by (cbn; auto 12).
  rewrite !(Hkey "kubernetes_labels_openchoreo_dev_project_uid") by (cbn; auto 12).
  rewrite !(Hkey "kubernetes_namespace_name") by (cbn; auto 12).
  rewrite !(Hkey "kubernetes_pod_id") by (cbn; auto 12).
  rewrite !(Hkey "kubernetes_container_name") by (cbn; auto 12).
  reflexivity.
Qed.

End TimestampFacts.

(** ** The client's base URL *)

Section NewClientFacts.

Lemma substring_take (u v : string) : String.substring 0 (String.length u) (u +:+ v) = u.
Proof.
  induction u as [|x u IH]; [now destruct v|].
  rewrite append_cons. cbn [String.length String.substring]. now rewrite IH.
Qed.

Lemma substring_all (v : string) : String.substring 0 (String.length v) v = v.
Proof. induction v as [|x v IH]; [reflexivity|]. cbn. now rewrite IH. Qed.

Lemma substring_skip (u v : string) :
  String.substring (String.length u) (String.length v) (u +:+ v) = v.
Proof.
  induction u as [|x u IH]; [apply substring_all|].
  rewrite append_cons. cbn [String.length String.substring]. apply IH.
Qed.

Lemma HasSuffix_app (u v : string) : strings.HasSuffix (u +:+ v) v = true.
Proof.
  unfold strings.HasSuffix. rewrite length_append.
  replace (String.length v <=? String.length u + String.length v)%nat with true
    by (symmetry; apply Nat.leb_le; lia).
  replace (String.length u + String.length v - String.length v)%nat
    with (String.length u) by lia.
  rewrite substring_skip. apply String.eqb_refl.
Qed.

Lemma TrimSuffix_app (u v : string) : strings.TrimSuffix (u +:+ v) v = u.
Proof.
  unfold strings.TrimSuffix. rewrite HasSuffix_app, length_append.
  replace (String.length u + String.length v - String.length v)%nat
    with (String.length u) by lia.
  apply substring_take.
Qed.

(** X13. [NewClient] drops one trailing slash of the base URL and only
    one, and keeps a URL without it as it is; so a base URL written with
    or without the slash gives the same client, and its URLs have a
    single slash after the base. *)
Theorem NewClient_trims_one_slash (url org stream user token : string) :
  baseURL (NewClient (url +:+ "/") org stream user token) = url
  /\ (strings.HasSuffix url "/" = false ->
        baseURL (NewClient url org stream user token) = url
        /\ NewClient (url +:+ "/") org stream user token
             = NewClient url org stream user token
        /\ searchURL (NewClient (url +:+ "/") org stream user token)
             = url +:+ "/api/" +:+ org +:+ "/_search"
        /\ alertsURL (NewClient (url +:+ "/") org stream user token)
             = url +:+ "/api/v2/" +:+ org +:+ "/alerts").
Proof.
  assert (Htrim : strings.TrimSuffix (url +:+ "/") "/" = url)
    by apply TrimSuffix_app.
  unfold NewClient, searchURL, alertsURL. cbn [baseURL openobserve.org].
  split; [assumption|].
  intros Hno. rewrite Htrim.
  assert (Hsame : strings.TrimSuffix url "/" = url)
    by (unfold strings.TrimSuffix; now rewrite Hno).
  rewrite Hsame. repeat split; reflexivity.
Qed.

End NewClientFacts.

(** ** The configuration and the start of the service *)

Section ConfigFacts.

Variable Quote : string -> string.
Variable mapToUpper : string -> string.

Local Abbreviation LoadConfig := (LoadConfig Quote mapToUpper).
Local Abbreviation parseLogLevel := (parseLogLevel mapToUpper).

Import Config.

Lemma getEnv_required (env : gmap string string) (key : string) :
  getEnv env key EmptyString = os.Getenv env key.
Proof.
  unfold getEnv. destruct (String.eqb_spec (os.Getenv env key) EmptyString) as [-> |];
    reflexivity.
Qed.

(** [LoadConfig], check by check. *)
Lemma LoadConfig_run (env : gmap string string) :
  LoadConfig env =
    if String.eqb (os.Getenv env "OPENOBSERVE_URL") EmptyString then
      Err "Environment variable OPENOBSERVE_URL is required"
    else if String.eqb (os.Getenv env "OPENOBSERVE_USER") EmptyString then
      Err "Environment variable OPENOBSERVE_USER is required"
    else if String.eqb (os.Getenv env "OPENOBSERVE_PASSWORD") EmptyString then
      Err "Environment variable OPENOBSERVE_PASSWORD is required"
    else
      match strconv.Atoi Quote (getEnv env "SERVER_PORT" "9098") with
      | Err err => Err ("invalid SERVER_PORT: " +:+ err)
      | Ok _ =>
          Ok (Config.mk (getEnv env "SERVER_PORT" "9098")
                (os.Getenv env "OPENOBSERVE_URL")
                (getEnv env "OPENOBSERVE_ORG" "default")
                (getEnv env "OPENOBSERVE_STREAM" "default")
                (os.Getenv env "OPENOBSERVE_USER")
                (os.Getenv env "OPENOBSERVE_PASSWORD")
                (parseLogLevel env))
      end.
Proof.
  unfold app.LoadConfig. cbv zeta. now rewrite !getEnv_required.
Qed.

(** X14. [LoadConfig] succeeds exactly when the URL, the user and the
    password of OpenObserve are set to something other than the empty
    string and the server port, 9098 when it is not set or empty, reads as
    a decimal integer.  The configuration then holds those values as they
    are, the organisation and the stream with default as their default,
    and a password of at least one byte. *)
Theorem LoadConfig_succeeds_iff (env : gmap string string) :
  ((exists cfg, LoadConfig env = Ok cfg) <->
   os.Getenv env "OPENOBSERVE_URL" <> EmptyString
   /\ os.Getenv env "OPENOBSERVE_USER" <> EmptyString
   /\ os.Getenv env "OPENOBSERVE_PASSWORD" <> EmptyString
   /\ exists port, strconv.Atoi Quote (getEnv env "SERVER_PORT" "9098") = Ok port)
  /\ (forall cfg,
        LoadConfig env = Ok cfg ->
        ServerPort cfg = getEnv env "SERVER_PORT" "9098"
        /\ OpenObserveURL cfg = os.Getenv env "OPENOBSERVE_URL"
        /\ OpenObserveOrg cfg = getEnv env "OPENOBSERVE_ORG" "default"
        /\ OpenObserveStream cfg = getEnv env "OPENOBSERVE_STREAM" "default"
        /\ OpenObserveUser cfg = os.Getenv env "OPENOBSERVE_USER"
        /\ OpenObservePassword cfg = os.Getenv env "OPENOBSERVE_PASSWORD"
        /\ (0 < String.length (OpenObservePassword cfg))%nat)
  /\ (forall key fallback,
        env !! key = None \/ env !! key = Some EmptyString ->
        getEnv env key fallback = fallback).
Proof.
  rewrite LoadConfig_run.
  destruct (String.eqb_spec (os.Getenv env "OPENOBSERVE_URL") EmptyString) as [Hu|Hu];
    [|destruct (String.eqb_spec (os.Getenv env "OPENOBSERVE_USER") EmptyString) as [Hs|Hs];
      [|destruct (String.eqb_spec (os.Getenv env "OPENOBSERVE_PASSWORD") EmptyString)
          as [Hp|Hp];
        [|destruct (strconv.Atoi Quote (getEnv env "SERVER_PORT" "9098"))
            as [port|err] eqn:Hport]]].
  all: split; [split; [intros [cfg H]; try discriminate H
                      | intros (H1 & H2 & H3 & [port' H4]); try contradiction;
                        try discriminate H4] |].
  all: try (split; [intros cfg H; try discriminate H |]).
  all: try (intros key fallback [Hk | Hk]; unfold getEnv, os.Getenv;
            rewrite Hk; reflexivity).
  - repeat split; try assumption. now exists port.
  - eexists. reflexivity.
  - injection H as <-. cbn. repeat split.
    destruct (os.Getenv env "OPENOBSERVE_PASSWORD"); [contradiction | cbn; lia].
Qed.

(** X15. [LoadConfig] reports the first thing that is missing, in the
    order URL, user, password, port, and a variable set to the empty
    string is missing.  [LOG_LEVEL] never makes it fail: whatever it is
    set to, [LoadConfig] succeeds or fails as without it, with the same
    error, and the level it reads is one of the four of [slog], info when
    the variable is not set. *)
Theorem LoadConfig_failures (env : gmap string string) :
  (os.Getenv env "OPENOBSERVE_URL" = EmptyString ->
     LoadConfig env = Err "Environment variable OPENOBSERVE_URL is required")
  /\ (os.Getenv env "OPENOBSERVE_URL" <> EmptyString ->
      os.Getenv env "OPENOBSERVE_USER" = EmptyString ->
      LoadConfig env = Err "Environment variable OPENOBSERVE_USER is required")
  /\ (os.Getenv env "OPENOBSERVE_URL" <> EmptyString ->
      os.Getenv env "OPENOBSERVE_USER" <> EmptyString ->
      os.Getenv env "OPENOBSERVE_PASSWORD" = EmptyString ->
      LoadConfig env = Err "Environment variable OPENOBSERVE_PASSWORD is required")
  /\ (forall level,
        match LoadConfig (<["LOG_LEVEL" := level]> env), LoadConfig env with
        | Ok _, Ok _ => True
        | Err err, Err err' => err = err'
        | _, _ => False
        end)
  /\ (parseLogLevel env = slog.LevelDebug \/ parseLogLevel env = slog.LevelInfo
      \/ parseLogLevel env = slog.LevelWarn \/ parseLogLevel env = slog.LevelError)
  /\ (env !! "LOG_LEVEL" = None -> parseLogLevel env = slog.LevelInfo).
Proof.
  split; [|split; [|split; [|split; [|split]]]].
  - intros H. rewrite LoadConfig_run.
    now rewrite (proj2 (String.eqb_eq _ _) H).
  - intros H1 H2. rewrite LoadConfig_run.
    now rewrite (proj2 (String.eqb_neq _ _) H1), (proj2 (String.eqb_eq _ _) H2).
  - intros H1 H2 H3. rewrite LoadConfig_run.
    now rewrite (proj2 (String.eqb_neq _ _) H1), (proj2 (String.eqb_neq _ _) H2),
      (proj2 (String.eqb_eq _ _) H3).
  - intros level. rewrite !LoadConfig_run.
    assert (Hother : forall key, key <> "LOG_LEVEL" ->
              os.Getenv (<["LOG_LEVEL" := level]> env) key = os.Getenv env key).
    { intros key Hkey. unfold os.Getenv. now rewrite lookup_insert_ne. }
    unfold getEnv. rewrite !Hother by discriminate.
    destruct (String.eqb (os.Getenv env "OPENOBSERVE_URL") EmptyString); [reflexivity|].
    destruct (String.eqb (os.Getenv env "OPENOBSERVE_USER") EmptyString); [reflexivity|].
    destruct (String.eqb (os.Getenv env "OPENOBSERVE_PASSWORD") EmptyString);
      [reflexivity|].
    destruct (strconv.Atoi Quote _); [exact I | reflexivity].
  - unfold app.parseLogLevel. cbv zeta.
    destruct (negb _); [|auto].
    repeat (destruct (String.eqb _ _); cbn [orb]; auto).
  - intros Hunset. unfold app.parseLogLevel, os.Getenv. now rewrite Hunset.
Qed.

Lemma upperByte_idem (c : ascii) :
  strings.upperByte (strings.upperByte c) = strings.upperByte c.
Proof. destruct c as [[] [] [] [] [] [] [] []]; reflexivity. Qed.

Lemma upperByte_ascii (c : ascii) :
  (nat_of_ascii (strings.upperByte c) <? 128)%nat = (nat_of_ascii c <? 128)%nat.
Proof. destruct c as [[] [] [] [] [] [] [] []]; reflexivity. Qed.

Lemma upperASCII_idem (s : string) :
  strings.upperASCII (strings.upperASCII s) = strings.upperASCII s.
Proof.
  induction s as [|c s IH]; [reflexivity|].
  cbn [strings.upperASCII]. now rewrite upperByte_idem, IH.
Qed.

Lemma upperASCII_ascii (s : string) :
  strings.isASCII (strings.upperASCII s) = strings.isASCII s.
Proof.
  induction s as [|c s IH]; [reflexivity|].
  cbn [strings.upperASCII strings.isASCII]. now rewrite upperByte_ascii, IH.
Qed.

(** X17. [LOG_LEVEL] is read without regard to the case of ASCII letters:
    for a value of ASCII bytes only, the level is the one its upper-case
    spelling gives. *)
Theorem log_level_ignores_case (env : gmap string string) (level : string) :
  strings.isASCII level = true ->
  parseLogLevel (<["LOG_LEVEL" := level]> env)
    = parseLogLevel (<["LOG_LEVEL" := strings.upperASCII level]> env).
Proof.
  intros Hascii. unfold app.parseLogLevel, os.Getenv. cbv zeta.
  rewrite !lookup_insert_eq.
  unfold strings.ToUpper.
  rewrite upperASCII_ascii, Hascii, upperASCII_idem.
  destruct level; reflexivity.
Qed.

End ConfigFacts.

Section StartFacts.

Variable Backend : Type.
Variable Do : http.Request -> Backend -> result http.Response * Backend.
Variable parseURLError : string -> option string.
Variable Quote : string -> string.
Variable mapToUpper : string -> string.
Variable UnmarshalObject : string -> result (gmap string any).

Local Abbreviation LoadConfig := (LoadConfig Quote mapToUpper).
Local Abbreviation main :=
  (main.main Backend Do parseURLError Quote mapToUpper UnmarshalObject).


End StartFacts.
(** * The adapter on concrete inputs *)

Section Examples.

Import Stub.
Import ComponentLogsParams.

(** The escaper on a value that holds a quote, a backslash and a
    backslash in front of a quote, and the way back. *)
Lemma escapeSQLString_roundtrip_witness :
  escapeSQLString "a'b\c\'" = "a''b\\c\\''"
  /\ unescapeSQLString "a''b\\c\\''" = "a'b\c\'".
Proof.
  split; [reflexivity|].
  apply (escapeSQLString_roundtrip "a'b\c\'"). reflexivity.
Defined.

(** Scenario 1 of the specification has no component IDs: only the project
    and the environment are filtered on.  With two component IDs, a search
    phrase and a level the group over the IDs is ANDed in third. *)
Lemma component_filter_optional_witness :
  componentLogsConditions scenario1
    = [ "kubernetes_labels_openchoreo_dev_project_uid = 'p1'";
        "kubernetes_labels_openchoreo_dev_environment_uid = 'e1'" ]
  /\ componentLogsConditions
       (mk ["c1"; "c'2"] "e1" "p1" time.epoch time.epoch "time\out" ["ERROR"] 0 "asc")
     = [ "kubernetes_labels_openchoreo_dev_project_uid = 'p1'";
         "kubernetes_labels_openchoreo_dev_environment_uid = 'e1'";
         "(kubernetes_labels_openchoreo_dev_component_uid = 'c1' OR kubernetes_labels_openchoreo_dev_component_uid = 'c''2')";
         "log LIKE '%time\\out%'";
         "(logLevel = 'ERROR')" ].
Proof.
  split.
  - apply (component_filter_optional Marshal scenario1 "default"). reflexivity.
  - apply (component_filter_optional Marshal
             (mk ["c1"; "c'2"] "e1" "p1" time.epoch time.epoch "time\out" ["ERROR"] 0 "asc")
             "default").
    discriminate.
Defined.

(** The spellings asc and ASC sort ascending; desc, the empty string and
    banana sort descending. *)
Lemma sort_order_whitelist_witness :
  let request sortOrder :=
    mk [] "e1" "p1" time.epoch time.epoch EmptyString [] 0 sortOrder in
  let filter :=
    "SELECT * FROM default WHERE kubernetes_labels_openchoreo_dev_project_uid = 'p1' AND kubernetes_labels_openchoreo_dev_environment_uid = 'e1'" in
  componentLogsSQL (request "asc") "default" = filter +:+ " ORDER BY _timestamp ASC"
  /\ componentLogsSQL (request "ASC") "default" = filter +:+ " ORDER BY _timestamp ASC"
  /\ componentLogsSQL (request "desc") "default" = filter +:+ " ORDER BY _timestamp DESC"
  /\ componentLogsSQL (request EmptyString) "default" = filter +:+ " ORDER BY _timestamp DESC"
  /\ componentLogsSQL (request "banana") "default" = filter +:+ " ORDER BY _timestamp DESC".
Proof.
  intros request filter.
  split; [apply (sort_order_whitelist Marshal (request "asc") "default"); now right|].
  split; [apply (sort_order_whitelist Marshal (request "ASC") "default"); now left|].
  split; [apply (sort_order_whitelist Marshal (request "desc") "default"); discriminate|].
  split; [apply (sort_order_whitelist Marshal (request EmptyString) "default"); discriminate|].
  apply (sort_order_whitelist Marshal (request "banana") "default"); discriminate.
Defined.

(** C5 as the claim words it fails: Asc matches asc without regard to
    case, and the filter is sorted descending. *)
Lemma sort_order_case_insensitive_counterexample :
  let params := mk [] "e1" "p1" time.epoch time.epoch EmptyString [] 0 "Asc" in
  EqualFold (SortOrder params) "asc" = true
  /\ componentLogsSQL params "default"
     = "SELECT * FROM default WHERE kubernetes_labels_openchoreo_dev_project_uid = 'p1' AND kubernetes_labels_openchoreo_dev_environment_uid = 'e1' ORDER BY _timestamp DESC"
  /\ ~ (forall params stream,
          componentLogsSQL params stream
            = selectWhere params stream
                +:+ sortClauseCaseInsensitive (SortOrder params)).
Proof.
  intros params. split; [reflexivity|]. split; [reflexivity|].
  intros H. specialize (H params "default"). discriminate H.
Qed.

(** Scenario 1 of the specification: the first day of 2024 in
    microseconds. *)
Lemma pagination_fixed_witness :
  queryField (componentLogsQuery scenario1 "default") "start_time"
    = Some (AnyInt64 1704067200000000)
  /\ queryField (componentLogsQuery scenario1 "default") "end_time"
    = Some (AnyInt64 1704153600000000).
Proof.
  destruct (pagination_fixed Marshal scenario1 "default")
    as (_ & _ & _ & Hstart & Hend & _ & Hexact).
  rewrite Hstart, Hend.
  rewrite (Hexact (StartTime scenario1))
    by (vm_compute; split; [discriminate | reflexivity]).
  rewrite (Hexact (EndTime scenario1))
    by (vm_compute; split; [discriminate | reflexivity]).
  split; reflexivity.
Defined.

(** The limits 0 and -5 become 100; 37 stays 37. *)
Lemma limit_default_witness :
  let request limit :=
    mk [] "e1" "p1" time.epoch time.epoch EmptyString [] limit EmptyString in
  effectiveLimit (request 0) = 100
  /\ effectiveLimit (request (-5)) = 100
  /\ effectiveLimit (request 37) = 37.
Proof.
  intros request.
  split; [apply (limit_default Marshal (request 0) "default"); cbn; lia|].
  split; [apply (limit_default Marshal (request (-5)) "default"); cbn; lia|].
  apply (limit_default Marshal (request 37) "default"); cbn; lia.
Defined.

Local Abbreviation getAlertIDByName :=
  (getAlertIDByName Backend Do parseURLError Quote UnmarshalAlertList).
Local Abbreviation DeleteAlert :=
  (DeleteAlert Backend Do parseURLError Quote UnmarshalAlertList).
Local Abbreviation HandleCreateAlert :=
  (HandleCreateAlert Backend Do parseURLError Marshal DecodeLogAlertParams).
Local Abbreviation GetComponentLogs :=
  (GetComponentLogs Backend Do parseURLError Marshal UnmarshalSearchResponse).

(** The stub backend lists its alerts. *)
Lemma stub_listing :
  listingIs Backend Do parseURLError UnmarshalAlertList client start alerts alerts.
Proof.
  split; [reflexivity|].
  exists (http.mkResponse 200 (Ok "listing")), "listing".
  repeat split; reflexivity.
Defined.

(** No alert of the stub is named High-error-rate with this spelling: the
    deletion fails with the not-found error and only the listing request
    goes out. *)
Lemma delete_two_phase_witness :
  DeleteAlert client "High-error-rate" start
    = (Err ("failed to find alert " +:+ Quote "High-error-rate" +:+ ": alert "
              +:+ Quote "High-error-rate" +:+ " not found"),
       mkWorld alerts [listRequest client]).
Proof.
  refine (proj2 (proj1 (delete_two_phase Backend Do parseURLError Quote
                          UnmarshalAlertList client "High-error-rate" start)
                   alerts alerts stub_listing _)).
  intros a Hin. cbn in Hin.
  destruct Hin as [<- | [<- | [<- | [<- | []]]]]; discriminate.
Defined.

(** Two alerts of the stub are named high-error-rate, after two whose
    names differ by case or are longer: the first of the two is resolved. *)
Lemma first_match_resolved_witness :
  getAlertIDByName client "high-error-rate" start
    = (Ok "id-2", mkWorld alerts [listRequest client]).
Proof.
  apply (proj1 (first_match_resolved Backend Do parseURLError Quote
                  UnmarshalAlertList client "high-error-rate" start alerts alerts
                  stub_listing)
           [ AlertListItem.mk "id-0" "High-Error-Rate";
             AlertListItem.mk "id-1" "high-error-rate-2" ]
           (AlertListItem.mk "id-2" "high-error-rate")
           [ AlertListItem.mk "id-3" "high-error-rate" ]).
  - reflexivity.
  - reflexivity.
  - intros a Hin. cbn in Hin. destruct Hin as [<- | [<- | []]]; discriminate.
Defined.

(** A hit whose fields are all of the wrong type normalises to the empty
    entry at the epoch, and the search of the stub, which returns a full
    hit, that hit and an empty one, gives three entries. *)
Lemma normalization_total_witness :
  hitTimestamp badHit = 0
  /\ ComponentLogsEntry.Timestamp (hitEntry badHit) = time.epoch
  /\ exists queryJSON,
       generateComponentLogsQuery Marshal scenario1 (stream client) = Ok queryJSON
       /\ fst (GetComponentLogs client scenario1 start)
          = Ok (ComponentLogsResult.mk [hitEntry fullHit; hitEntry badHit; hitEntry ∅] 3 12).
Proof.
  pose proof (normalization_total Backend Do parseURLError Marshal
                UnmarshalSearchResponse badHit) as (_ & _ & (_ & Hepoch) & _ & Hlogs).
  split; [|split].
  - apply Hepoch. intros ts H. vm_compute in H. discriminate H.
  - apply Hepoch. intros ts H. vm_compute in H. discriminate H.
  - exists "{}". split; [reflexivity|].
    destruct (Hlogs client scenario1 start "{}"
                (OpenObserveResponse.mk 12 [fullHit; badHit; ∅] 3)
                (mkWorld alerts
                   [http.mkRequest "POST" "http://openobserve:5080/api/default/_search"
                      (Some "{}") (Some "application/json") (Some ("root", "secret"))])
                eq_refl eq_refl) as [Hrun _].
    now rewrite Hrun.
Defined.

(** Scenario 3 of the specification, with a body that carries a name of
    its own: the document sent is named by the path and its query holds
    the literal 'ERROR'. *)
Lemma create_alert_named_by_path_witness :
  let r := http.mkServerRequest
             (fun wildcard =>
                if String.eqb wildcard "ruleName" then "high-error-rate"
                else EmptyString)
             "body-with-name" in
  let doc := alertConfig (LogAlertParams.mk "high-error-rate" "ERROR" 10 5 1) "default" in
  DecodeLogAlertParams (http.RequestBody r)
    = Ok (LogAlertParams.mk "name-from-body" "ERROR" 10 5 1)
  /\ field doc "name" = Some (AnyString "high-error-rate")
  /\ field doc "query"
     = Some (AnyString ("SELECT count(*) as match_count FROM " +:+ dquote +:+ "default"
                          +:+ dquote +:+ " WHERE str_match(log, 'ERROR')"))
  /\ sent (snd (HandleCreateAlert client r start))
     = [createRequest client
          ("high-error-rate|SELECT count(*) as match_count FROM " +:+ dquote
             +:+ "default" +:+ dquote +:+ " WHERE str_match(log, 'ERROR')")].
Proof.
  intros r doc.
  pose proof (create_alert_named_by_path Backend Do parseURLError Marshal
                DecodeLogAlertParams client r start
                (LogAlertParams.mk "name-from-body" "ERROR" 10 5 1))
    as Hcreate.
  destruct Hcreate as (Hname & Hquery & _ & _ & Hsent);
    [discriminate | reflexivity |].
  split; [reflexivity|]. split; [exact Hname|]. split; [exact Hquery|].
  apply (Hsent _ eq_refl eq_refl).
Defined.

End Examples.

Section MoreExamples.

Import Stub.





(** A creation without a rule name is refused with a 400. *)
Lemma create_handler_replies_witness :
  fst (HandleCreateAlert Backend Do parseURLError Marshal DecodeLogAlertParams
         client (Service.ruleRequest EmptyString) start)
  = http.mkWritten 400 "text/plain; charset=utf-8"
      ("Rule name is required" +:+ String "010"%char EmptyString).
Proof.
  apply (create_handler_replies Backend Do parseURLError Marshal
           DecodeLogAlertParams client (Service.ruleRequest EmptyString) start).
  reflexivity.
Defined.

(** The deletion of a name the listing does not hold is answered with the
    plain 500, after the listing request alone. *)
Lemma delete_handler_replies_witness :
  HandleDeleteAlert Backend Do parseURLError Marshal Quote UnmarshalAlertList
    client (Service.ruleRequest "High-error-rate") start
  = (http.mkWritten 500 "text/plain; charset=utf-8"
       ("Failed to delete alert" +:+ String "010"%char EmptyString),
     mkWorld alerts [listRequest client]).
Proof.
  destruct (delete_handler_replies Backend Do parseURLError Quote Marshal
              UnmarshalAlertList client (Service.ruleRequest "High-error-rate") start)
    as (_ & _ & _ & _ & Habsent & _).
  destruct (Habsent alerts alerts) as [Hout Hworld].
  - discriminate.
  - exact stub_listing.
  - intros a Hin. cbn in Hin.
    destruct Hin as [<- | [<- | [<- | [<- | []]]]]; discriminate.
  - now rewrite (surjective_pairing (HandleDeleteAlert _ _ _ _ _ _ _ _ _)),
      Hout, Hworld.
Defined.

(** A trace query is refused with a 400 that names component, and is not
    sent on. *)
Lemma logs_handler_replies_witness :
  HandleLogsQuery Backend Do parseURLError Marshal UnmarshalSearchResponse
    Service.UnmarshalType Service.UnmarshalComponentLogsParams Service.MarshalResult
    client (Ok "trace-query") start
  = (http.mkWritten 400 "text/plain; charset=utf-8"
       ("Unknown log query type: trace. Supported types are " +:+ dquote
          +:+ "component" +:+ dquote +:+ String "010"%char EmptyString),
     start).
Proof.
  destruct (logs_handler_replies Backend Do parseURLError Marshal
              UnmarshalSearchResponse Service.UnmarshalType
              Service.UnmarshalComponentLogsParams Service.MarshalResult
              client (Ok "trace-query") start)
    as (_ & _ & Hunknown & _).
  destruct (Hunknown "trace-query" "trace") as (Hout & Hworld & _);
    [reflexivity | reflexivity | discriminate |].
  now rewrite (surjective_pairing (HandleLogsQuery _ _ _ _ _ _ _ _ _ _ _)),
    Hout, Hworld.
Defined.

(** A value without quote or backslash is left as it is. *)
Lemma escape_bytewise_witness :
  escapeSQLString "50% of c1_x" = "50% of c1_x".
Proof.
  apply (escape_bytewise "50% of c1_x" EmptyString). reflexivity.
Defined.

(** The microsecond before the epoch. *)
Lemma entry_timestamp_roundtrip_witness :
  time.Time_UnixMicro
    (ComponentLogsEntry.Timestamp (parseApplicationLogEntry (-1) badHit)) = -1.
Proof.
  apply (entry_timestamp_roundtrip (-1) badHit).
  split; [discriminate | reflexivity].
Defined.

(** A key the normaliser does not read changes nothing. *)
Lemma entry_reads_known_keys_witness :
  hitEntry (<["kubernetes_host" := AnyString "node-1"]> fullHit) = hitEntry fullHit.
Proof.
  apply entry_reads_known_keys.
  intros key Hin. apply lookup_insert_ne.
  cbn in Hin.
  repeat (destruct Hin as [<- | Hin]; [discriminate|]). destruct Hin.
Defined.

(** A base URL with its slash and without. *)
Lemma NewClient_trims_one_slash_witness :
  NewClient "http://openobserve:5080/" "default" "default" "root" "secret" = client.
Proof.
  transitivity (NewClient "http://openobserve:5080" "default" "default" "root" "secret");
    [|reflexivity].
  apply (NewClient_trims_one_slash "http://openobserve:5080" "default" "default"
           "root" "secret").
  reflexivity.
Defined.

(** The environment of the service loads, with a port that is no TCP
    port. *)
Lemma LoadConfig_succeeds_iff_witness :
  exists cfg, LoadConfig Quote Service.mapToUpper Service.env = Ok cfg.
Proof.
  apply (LoadConfig_succeeds_iff Quote Service.mapToUpper Service.env).
  split; [discriminate|]. split; [discriminate|]. split; [discriminate|].
  exists 70000. reflexivity.
Defined.

(** Without a password the password is what is reported, not the port. *)
Lemma LoadConfig_failures_witness :
  LoadConfig Quote Service.mapToUpper Service.envNoPassword
  = Err "Environment variable OPENOBSERVE_PASSWORD is required".
Proof.
  apply (LoadConfig_failures Quote Service.mapToUpper Service.envNoPassword);
    [discriminate | discriminate | reflexivity].
Defined.


(** Debug, written with a capital, is the debug level. *)
Lemma log_level_ignores_case_witness :
  parseLogLevel Service.mapToUpper Service.env = slog.LevelDebug.
Proof.
  transitivity (parseLogLevel Service.mapToUpper
                  (<["LOG_LEVEL" := "Debug"]> Service.env)); [reflexivity|].
  rewrite (log_level_ignores_case Service.mapToUpper Service.env "Debug")
    by reflexivity.
  reflexivity.
Defined.

End MoreExamples.
